(** * vkBasalt installer: a shallow embedding of [v1.0_Installer.py]

    The script detects the Linux distribution, installs or removes the
    [vkbasalt] package through the package manager of the distribution
    family (with an AUR helper as a second tier on Arch), and then sets up
    configuration and data directories.

    The embedding follows the script function by function.  Python text is
    modelled over Rocq strings: a character is a code point below 256, and
    on this range the [str] methods used by the script ([strip], [split],
    [splitlines], [lower], [repr]) are Python's, the no-break space and the
    next-line character included.  Text with code points from 256 on is
    outside the model.  Everything the script asks of the operating system (PATH
    lookups, file tests, subprocesses, the os-release file) is answered by
    an [OS] record over an abstract world; subprocesses and the
    provisioning steps change that world.  Exceptions are an error monad,
    and [print] / [sleep] / subprocess calls are recorded in a trace. *)

From Stdlib Require Import String Ascii List Bool Arith Lia.
Import ListNotations.
Local Open Scope string_scope.
Local Open Scope nat_scope.
Local Open Scope list_scope.

(** Concatenation of text, Python's [+] on [str]. *)
Infix "^^" := String.append (at level 60, right associativity).

(* ================================================================== *)
(** ** Python text primitives *)
(* ================================================================== *)

Module Py.

(** The whitespace of [str.strip] and [str.split] below code point 256:
    TAB, LF, VT, FF, CR, FS, GS, RS, US, the space, the next-line character
    (133) and the no-break space (160). *)
Definition is_space (c : ascii) : bool :=
  let n := nat_of_ascii c in
  ((9 <=? n) && (n <=? 13)) || ((28 <=? n) && (n <=? 31)) || (n =? 32)
  || (n =? 133) || (n =? 160).

(** Line boundaries of [str.splitlines] below code point 256: LF, VT, FF,
    CR, FS, GS, RS and the next-line character (133); CR LF counts as one
    boundary, see [splitlines]. *)
Definition is_linebreak (c : ascii) : bool :=
  let n := nat_of_ascii c in
  ((10 <=? n) && (n <=? 13)) || ((28 <=? n) && (n <=? 30)) || (n =? 133).

Definition CR : ascii := ascii_of_nat 13.
Definition LF : ascii := ascii_of_nat 10.
Definition TAB : ascii := ascii_of_nat 9.
Definition DQUOTE : ascii := ascii_of_nat 34.
Definition SQUOTE : ascii := ascii_of_nat 39.
Definition BACKSLASH : ascii := ascii_of_nat 92.
Definition NEL : ascii := ascii_of_nat 133.
Definition NBSP : ascii := ascii_of_nat 160.

(** [str.lower] on one code point below 256: the letters A to Z, and the
    capital letters 192 to 222 of the Latin-1 block (215, the
    multiplication sign, is no letter). *)
Definition lower_char (c : ascii) : ascii :=
  let n := nat_of_ascii c in
  if ((65 <=? n) && (n <=? 90))
     || ((192 <=? n) && (n <=? 222) && negb (n =? 215))
  then ascii_of_nat (n + 32) else c.

(** [s.lower()] *)
Fixpoint lower (s : string) : string :=
  match s with
  | EmptyString => EmptyString
  | String c r => String (lower_char c) (lower r)
  end.

Definition is_empty (s : string) : bool :=
  match s with EmptyString => true | String _ _ => false end.

Fixpoint lstrip_by (p : ascii -> bool) (s : string) : string :=
  match s with
  | EmptyString => EmptyString
  | String c r => if p c then lstrip_by p r else s
  end.

Fixpoint rstrip_by (p : ascii -> bool) (s : string) : string :=
  match s with
  | EmptyString => EmptyString
  | String c r =>
      let r' := rstrip_by p r in
      if p c && is_empty r' then EmptyString else String c r'
  end.

(** [s.strip()] *)
Definition strip (s : string) : string :=
  rstrip_by is_space (lstrip_by is_space s).

(** [s.strip(c)] for a one-character argument *)
Definition strip_char (c : ascii) (s : string) : string :=
  rstrip_by (Ascii.eqb c) (lstrip_by (Ascii.eqb c) s).

(** [s.startswith(p)] *)
Definition startswith (p s : string) : bool := String.prefix p s.

(** [sub in s] *)
Fixpoint contains (sub s : string) : bool :=
  String.prefix sub s ||
  match s with
  | EmptyString => false
  | String _ r => contains sub r
  end.

(** [s.split(c, 1)] for a one-character separator: [None] stands for the
    one-element list [[s]] (no separator found), [Some (a, b)] for the
    two-element list [[a, b]]. *)
Fixpoint split1 (c : ascii) (s : string) : option (string * string) :=
  match s with
  | EmptyString => None
  | String d r =>
      if Ascii.eqb d c then Some (EmptyString, r)
      else match split1 c r with
           | Some (a, b) => Some (String d a, b)
           | None => None
           end
  end.

(** [s.split()]: the maximal runs of non-whitespace characters. *)
Fixpoint split_ws (s : string) : list string :=
  match s with
  | EmptyString => []
  | String c r =>
      if is_space c then split_ws r
      else match r with
           | EmptyString => [String c EmptyString]
           | String c' _ =>
               if is_space c' then String c EmptyString :: split_ws r
               else match split_ws r with
                    | t :: ts => String c t :: ts
                    | [] => [String c EmptyString]
                    end
           end
  end.

(** [s.splitlines()] *)
Fixpoint splitlines (s : string) : list string :=
  match s with
  | EmptyString => []
  | String c r =>
      if is_linebreak c then
        match r with
        | String c' r' =>
            if Ascii.eqb c CR && Ascii.eqb c' LF
            then EmptyString :: splitlines r'
            else EmptyString :: splitlines r
        | EmptyString => [EmptyString]
        end
      else match splitlines r with
           | l :: ls => String c l :: ls
           | [] => [String c EmptyString]
           end
  end.

(** [sep.join(l)] *)
Fixpoint join (sep : string) (l : list string) : string :=
  match l with
  | [] => EmptyString
  | [x] => x
  | x :: r => x ^^ sep ^^ join sep r
  end.

Definition hex_digit (n : nat) : ascii :=
  if n <? 10 then ascii_of_nat (48 + n) else ascii_of_nat (87 + n).

Fixpoint has_char (c : ascii) (s : string) : bool :=
  match s with
  | EmptyString => false
  | String d r => Ascii.eqb d c || has_char c r
  end.

(** [repr(s)] of a [str] below code point 256: single quotes unless the
    text has a single quote and no double quote; the quote character and
    the backslash are escaped, TAB, LF and CR are written with their
    letter, the other characters that are not printable (the control
    characters below 32 and from 127 to 159, the no-break space 160 and the
    soft hyphen 173) as two hexadecimal digits. *)
Definition repr_char (q c : ascii) : string :=
  let n := nat_of_ascii c in
  if Ascii.eqb c q || Ascii.eqb c BACKSLASH then String BACKSLASH (String c EmptyString)
  else if Ascii.eqb c TAB then String BACKSLASH "t"
  else if Ascii.eqb c LF then String BACKSLASH "n"
  else if Ascii.eqb c CR then String BACKSLASH "r"
  else if (n <? 32) || ((127 <=? n) && (n <=? 160)) || (n =? 173)
       then String BACKSLASH
              (String "x" (String (hex_digit (n / 16)) (String (hex_digit (n mod 16)) EmptyString)))
  else String c EmptyString.

Fixpoint repr_body (q : ascii) (s : string) : string :=
  match s with
  | EmptyString => EmptyString
  | String c r => repr_char q c ^^ repr_body q r
  end.

Definition repr (s : string) : string :=
  let q := if has_char SQUOTE s && negb (has_char DQUOTE s) then DQUOTE else SQUOTE in
  String q (repr_body q s ^^ String q EmptyString).

(** A [dict] with [str] keys, in insertion order. *)
Definition dict (V : Type) : Type := list (string * V).

(** [d[k]] as a lookup ([k in d] is [get] being [Some]). *)
Fixpoint get {V} (d : dict V) (k : string) : option V :=
  match d with
  | [] => None
  | (k', v) :: r => if String.eqb k' k then Some v else get r k
  end.

(** [d[k] = v]: an existing key keeps its place, a new key goes last. *)
Fixpoint set {V} (d : dict V) (k : string) (v : V) : dict V :=
  match d with
  | [] => [(k, v)]
  | (k', v') :: r => if String.eqb k' k then (k', v) :: r else (k', v') :: set r k v
  end.

(** [str(d)] for a [dict] from [str] to [str] *)
Definition str_dict (d : dict string) : string :=
  "{" ^^ join ", " (map (fun kv => repr (fst kv) ^^ ": " ^^ repr (snd kv)) d) ^^ "}".

End Py.

Example split_ws_ex :
  Py.split_ws "vkbasalt 0.3.2.10-1" = ["vkbasalt"; "0.3.2.10-1"].
Proof. reflexivity. Qed.

Example splitlines_ex :
  Py.splitlines (String "a" (String Py.CR (String Py.LF (String "b" (String Py.LF EmptyString)))))
  = ["a"; "b"].
Proof. reflexivity. Qed.

Example strip_ex : Py.strip "  Version : 1  " = "Version : 1".
Proof. reflexivity. Qed.

(** Past ASCII: the no-break space and the next-line character separate
    tokens and are stripped, the next-line character ends a line, and the
    capital letters of Latin-1 are lowered. *)
Example latin1_ex :
  Py.split_ws ("vkbasalt" ^^ String Py.NBSP ("1.2.3" ^^ String Py.NEL "x"))
  = ["vkbasalt"; "1.2.3"; "x"] /\
  Py.strip (String Py.NBSP ("yes" ^^ String Py.NEL EmptyString)) = "yes" /\
  Py.splitlines ("Name : vkbasalt" ^^ String Py.NEL "Version : 1.2.3")
  = ["Name : vkbasalt"; "Version : 1.2.3"] /\
  Py.lower (String (ascii_of_nat 201) "COLE") = String (ascii_of_nat 233) "cole" /\
  Py.lower (String (ascii_of_nat 215) EmptyString) = String (ascii_of_nat 215) EmptyString /\
  Py.repr (String Py.NBSP EmptyString)
  = String Py.SQUOTE (String Py.BACKSLASH ("xa0" ^^ String Py.SQUOTE EmptyString)).
Proof. repeat split. Qed.

Example repr_ex : Py.str_dict [("id", "arch"); ("name", "it's")]
  = String "{" (String Py.SQUOTE ("id" ^^ String Py.SQUOTE (": " ^^ String Py.SQUOTE ("arch" ^^
    String Py.SQUOTE (", " ^^ String Py.SQUOTE ("name" ^^ String Py.SQUOTE (": " ^^
    String Py.DQUOTE ("it's" ^^ String Py.DQUOTE "}")))))))).
Proof. reflexivity. Qed.

(* ================================================================== *)
(** ** Exceptions, the operating system, the run-time state *)
(* ================================================================== *)

(** The exceptions the script can meet.  [CalledProcessError] is what
    [subprocess.run(..., check=True)] and [subprocess.check_output] raise on
    a non-zero exit; [FileNotFoundError] is what they raise when the
    executable does not exist; [OSError] stands for the other operating
    system errors.  Each of these carries its text, [str(e)].  [NameError]
    is the [UnboundLocalError] (a subclass of [NameError]) of reading a
    local variable that was never assigned. *)
Inductive exn : Type :=
| CalledProcessError (msg : string)
| FileNotFoundError (msg : string)
| OSError (msg : string)
| IndexError
| NameError
| ValueError.

Inductive result (A : Type) : Type :=
| Ret (a : A)
| Raise (e : exn).
Arguments Ret {A} a.
Arguments Raise {A} e.

(** [str(e)]; the text of the three interpreter errors is that of the one
    place of the script where each can arise. *)
Definition str_exn (e : exn) : string :=
  match e with
  | CalledProcessError msg | FileNotFoundError msg | OSError msg => msg
  | IndexError => "list index out of range"
  | NameError => "cannot access local variable 'latest' where it is not associated with a value"
  | ValueError => "not enough values to unpack (expected 2, got 1)"
  end.

(** The provisioning functions of the script ([setup_vkbasalt_config],
    [create_pyroclast_directories], [prompt_and_download_assets]); they
    only touch files, the terminal and the network, and are kept as
    opaque steps. *)
Inductive stage : Type := SetupConfig | CreateDirectories | PromptDownload.

(** What a run does that can be seen from outside, in order. *)
Inductive event : Type :=
| Print (message : string)            (* print(message) *)
| Sleep (seconds : nat)               (* time.sleep(seconds) *)
| Run (argv : list string)            (* subprocess.run(argv, check=True) *)
| CheckOutput (argv : list string)    (* subprocess.check_output(argv) *)
| Provision (st : stage).

(** The operating system over a world [W].  Queries read the world;
    subprocesses and provisioning steps also change it. *)
Record OS (W : Type) : Type := {
  os_which : W -> string -> bool;        (* shutil.which(name) is not None *)
  os_path_exists : W -> string -> bool;  (* os.path.exists(path) *)
  os_machine : W -> string;              (* platform.machine() *)
  os_release : W -> result (list string);
     (* open("/etc/os-release").readlines() *)
  os_run : W -> list string -> result unit * W;
     (* subprocess.run(argv, check=True) *)
  os_check_output : W -> list string -> result string * W;
     (* subprocess.check_output(argv).decode() *)
  os_provision : W -> stage -> result unit * W
}.
Arguments os_which {W} _ _ _.
Arguments os_path_exists {W} _ _ _.
Arguments os_machine {W} _ _.
Arguments os_release {W} _ _.
Arguments os_run {W} _ _ _.
Arguments os_check_output {W} _ _ _.
Arguments os_provision {W} _ _ _.

(** The state of a run: the world, the trace so far, and the two module
    globals of the script. *)
Record state (W : Type) : Type := mkState {
  world : W;
  trace : list event;
  SLOW_MODE : bool;
  CUSTOM_PATH : option string
}.
Arguments mkState {W} _ _ _ _.
Arguments world {W} _.
Arguments trace {W} _.
Arguments SLOW_MODE {W} _.
Arguments CUSTOM_PATH {W} _.

Definition SLOW_DELAY : nat := 2.

(** Module load: slow mode off, no custom path, nothing done yet. *)
Definition initial {W} (w : W) : state W := mkState w [] false None.

(** Observations on a trace. *)
Fixpoint commands (tr : list event) : list (list string) :=
  match tr with
  | [] => []
  | Run argv :: r | CheckOutput argv :: r => argv :: commands r
  | _ :: r => commands r
  end.

Fixpoint printed (tr : list event) : list string :=
  match tr with
  | [] => []
  | Print m :: r => m :: printed r
  | _ :: r => printed r
  end.

Fixpoint provisioned (tr : list event) : list stage :=
  match tr with
  | [] => []
  | Provision st :: r => st :: provisioned r
  | _ :: r => provisioned r
  end.

(** Python truthiness of a [str]. *)
Definition truthy (s : string) : bool := negb (Py.is_empty s).

(* ================================================================== *)
(** ** The monad of the script: state and exceptions *)
(* ================================================================== *)

Definition M (W A : Type) : Type := state W -> result A * state W.

Definition ret {W A} (a : A) : M W A := fun s => (Ret a, s).

Definition raise {W A} (e : exn) : M W A := fun s => (Raise e, s).

Definition bind {W A B} (m : M W A) (k : A -> M W B) : M W B :=
  fun s => match m s with
           | (Ret a, s') => k a s'
           | (Raise e, s') => (Raise e, s')
           end.

(** [try: m  except ...: h]: the handler picks the exceptions it takes. *)
Definition try_except {W A} (m : M W A) (h : exn -> option (M W A)) : M W A :=
  fun s => match m s with
           | (Ret a, s') => (Ret a, s')
           | (Raise e, s') =>
               match h e with
               | Some k => k s'
               | None => (Raise e, s')
               end
           end.

(** [except subprocess.CalledProcessError as e: k (str e)] *)
Definition except_CalledProcessError {W A} (k : string -> M W A) (e : exn)
  : option (M W A) :=
  match e with
  | CalledProcessError msg => Some (k msg)
  | _ => None
  end.

(** [except Exception as e: k (str e)] *)
Definition except_Exception {W A} (k : string -> M W A) (e : exn)
  : option (M W A) :=
  Some (k (str_exn e)).

Definition lift {W A} (r : result A) : M W A := fun s => (r, s).

Declare Scope py_scope.
Delimit Scope py_scope with py.
Notation "x <- m ;; k" := (bind m (fun x => k))
  (at level 61, m at next level, right associativity) : py_scope.
Notation "m ;; k" := (bind m (fun _ => k))
  (at level 61, right associativity) : py_scope.
Local Open Scope py_scope.

Definition emit {W} (e : event) : M W unit :=
  fun s => (Ret tt, mkState (world s) (trace s ++ [e]) (SLOW_MODE s) (CUSTOM_PATH s)).

Definition get_SLOW_MODE {W} : M W bool := fun s => (Ret (SLOW_MODE s), s).

Definition get_CUSTOM_PATH {W} : M W (option string) :=
  fun s => (Ret (CUSTOM_PATH s), s).

Definition set_SLOW_MODE {W} (b : bool) : M W unit :=
  fun s => (Ret tt, mkState (world s) (trace s) b (CUSTOM_PATH s)).

Definition set_CUSTOM_PATH {W} (p : option string) : M W unit :=
  fun s => (Ret tt, mkState (world s) (trace s) (SLOW_MODE s) p).

(** [slow_log] (lines 65-69) *)
Definition slow_log {W} (message : string) : M W unit :=
  emit (Print message);;
  slow <- get_SLOW_MODE;;
  if slow then emit (Sleep SLOW_DELAY) else ret tt.
Arguments slow_log : simpl never.

(* ================================================================== *)
(** ** The script *)
(* ================================================================== *)

(** The parsed command line ([argparse] in [main], lines 379-388). *)
Record Args : Type := mkArgs {
  slow : bool;
  force_distro : option string;
  uninstall : bool;
  flatpak : bool;
  flatpak_pkg : string;
  custom_path : option string;
  aur_helper : string
}.

Section Script.

Context {W : Type} (os : OS W).

(** *** Calls into the operating system *)

Definition which (name : string) : M W bool :=
  fun s => (Ret (os_which os (world s) name), s).

Definition path_exists (path : string) : M W bool :=
  fun s => (Ret (os_path_exists os (world s) path), s).

Definition machine : M W string :=
  fun s => (Ret (os_machine os (world s)), s).

Definition readlines_os_release : M W (list string) :=
  fun s => (os_release os (world s), s).

Definition external {A} (e : event) (call : W -> result A * W) : M W A :=
  fun s =>
    let (r, w') := call (world s) in
    (r, mkState w' (trace s ++ [e]) (SLOW_MODE s) (CUSTOM_PATH s)).

Definition subprocess_run (argv : list string) : M W unit :=
  external (Run argv) (fun w => os_run os w argv).

Definition subprocess_check_output (argv : list string) : M W string :=
  external (CheckOutput argv) (fun w => os_check_output os w argv).

Definition setup_vkbasalt_config : M W unit :=
  external (Provision SetupConfig) (fun w => os_provision os w SetupConfig).

Definition create_pyroclast_directories : M W unit :=
  external (Provision CreateDirectories) (fun w => os_provision os w CreateDirectories).

Definition prompt_and_download_assets : M W unit :=
  external (Provision PromptDownload) (fun w => os_provision os w PromptDownload).

(** *** [detect_distro] (lines 72-111) *)

(** Lines 80-83: the loop that fills [info]. *)
Fixpoint parse_os_release (lines : list string) (info : Py.dict string)
  : result (Py.dict string) :=
  match lines with
  | [] => Ret info
  | line :: rest =>
      if Py.contains "=" line then
        match Py.split1 "=" (Py.strip line) with
        | Some (key, value) =>
            parse_os_release rest
              (Py.set info (Py.lower key) (Py.lower (Py.strip_char Py.DQUOTE value)))
        | None => Raise ValueError
        end
      else parse_os_release rest info
  end.

Definition mem (x : string) (l : list string) : bool := existsb (String.eqb x) l.

(** Lines 86-96: the first matching test on [id_like], if that key is there. *)
Definition classify_id_like (info : Py.dict string) (distro : string) : string :=
  match Py.get info "id_like" with
  | Some id_like =>
      if Py.contains "debian" id_like then "debian"
      else if Py.contains "fedora" id_like then "fedora"
      else if Py.contains "arch" id_like then "arch"
      else if Py.contains "void" id_like then "void"
      else if Py.contains "solus" id_like then "solus"
      else distro
  | None => distro
  end.

(** Lines 97-107: the tests on [id], only while [distro] is still unknown. *)
Definition classify_id (info : Py.dict string) (distro : string) : string :=
  match String.eqb distro "unknown", Py.get info "id" with
  | true, Some id =>
      if mem id ["debian"; "ubuntu"; "linuxmint"] then "debian"
      else if mem id ["fedora"; "centos"; "rhel"] then "fedora"
      else if mem id ["arch"; "manjaro"; "cachyos"] then "arch"
      else if String.eqb id "void" then "void"
      else if String.eqb id "solus" then "solus"
      else distro
  | _, _ => distro
  end.

(** Lines 86-107. *)
Definition classify (info : Py.dict string) : string :=
  classify_id info (classify_id_like info "unknown").

Definition detect_distro : M W string :=
  slow_log "Detecting Linux distribution by reading /etc/os-release...";;
  distro <-
    try_except
      (lines <- readlines_os_release;;
       info <- lift (parse_os_release lines []);;
       slow_log ("Parsed /etc/os-release: " ^^ Py.str_dict info);;
       ret (classify info))
      (except_Exception (fun msg =>
         slow_log ("Error reading /etc/os-release: " ^^ msg);;
         ret "unknown"));;
  slow_log ("Determined distribution: " ^^ distro);;
  ret distro.

(** *** [is_vkbasalt_installed] (lines 114-142) *)

(** Lines 120-123: the loop over the binary names; [true] is the early
    [return True]. *)
Fixpoint find_binary (names : list string) : M W bool :=
  match names with
  | [] => ret false
  | binary :: rest =>
      hit <- which binary;;
      if hit then
        slow_log ("Found binary " ^^ binary ^^ " in PATH.");;
        ret true
      else find_binary rest
  end.

(** Lines 134-137: the loop over [known_locations.items()]. *)
Fixpoint scan_known_locations (items : Py.dict string) (found : bool) : M W bool :=
  match items with
  | [] => ret found
  | (path, desc) :: rest =>
      there <- path_exists path;;
      if there then
        slow_log ("Found " ^^ desc ^^ " at " ^^ path ^^ ".");;
        scan_known_locations rest true
      else scan_known_locations rest found
  end.

Definition known_locations : Py.dict string :=
  [("/usr/lib/libvkbasalt.so", "Library file");
   ("/usr/share/vulkan/implicit_layer.d/vkBasalt.json", "Vulkan layer config");
   ("/usr/share/vkbasalt/vkBasalt.conf.example", "Example config file")].

Definition is_vkbasalt_installed : M W bool :=
  slow_log "Checking if vkbasalt is installed (searching in PATH)...";;
  hit <- find_binary ["vkbasalt"; "vkBasalt"];;
  if hit then ret true
  else
    slow_log "Not found in PATH; checking known locations...";;
    custom <- get_CUSTOM_PATH;;
    let locations :=
      match custom with
      | Some p => if truthy p
                  then Py.set known_locations p "Custom provided path"
                  else known_locations
      | None => known_locations
      end in
    found <- scan_known_locations locations false;;
    (if found
     then slow_log "vkBasalt detected (Vulkan layer installed)."
     else slow_log "vkbasalt not found in expected locations.");;
    ret found.

(** *** [is_vkbasalt_up_to_date_with_aur] (lines 145-164) *)

(** Line 151, after the call: [.strip().split()[1]]. *)
Definition installed_version (output : string) : result string :=
  match Py.split_ws (Py.strip output) with
  | _ :: v :: _ => Ret v
  | _ => Raise IndexError
  end.

(** Lines 153-156: the loop binds [latest] at the first line that starts
    with [version] once lowered; [Ret None] is the loop ending with [latest]
    unbound. *)
Fixpoint latest_version (lines : list string) : result (option string) :=
  match lines with
  | [] => Ret None
  | line :: rest =>
      if Py.startswith "version" (Py.lower line) then
        match Py.split1 ":" line with
        | Some (_, after) => Ret (Some (Py.strip after))
        | None => Raise IndexError
        end
      else latest_version rest
  end.

Definition is_vkbasalt_up_to_date_with_aur (aur_helper : string) : M W bool :=
  try_except
    (out <- subprocess_check_output [aur_helper; "-Q"; "vkbasalt"];;
     installed <- lift (installed_version out);;
     available_output <- subprocess_check_output [aur_helper; "-Si"; "vkbasalt"];;
     bound <- lift (latest_version (Py.splitlines available_output));;
     match bound with
     | None => raise NameError
     | Some latest =>
         if String.eqb installed latest then
           slow_log ("vkbasalt is already the latest version: " ^^ installed);;
           ret true
         else
           slow_log ("vkbasalt is outdated. Installed: " ^^ installed
                     ^^ ", Latest: " ^^ latest);;
           ret false
     end)
    (except_CalledProcessError (fun _ => ret false)).

(** *** The AUR helper of lines 197-202 and again 247-252 *)

(** Lines 199-202: the first name of the list that resolves. *)
Fixpoint first_resolving (names : list string) : M W (option string) :=
  match names with
  | [] => ret None
  | helper :: rest =>
      hit <- which helper;;
      if hit then ret (Some helper) else first_resolving rest
  end.

Definition resolve_aur_helper (aur_helper : string) : M W (option string) :=
  given <- (if truthy aur_helper then which aur_helper else ret false);;
  if given then ret (Some aur_helper)
  else first_resolving ["yay"; "paru"].

(** *** [install_vkbasalt] (lines 167-221) *)

Definition install_arch (aur_helper : string) : M W unit :=
  slow_log "Installing vkbasalt via pacman...";;
  try_except
    (subprocess_run ["sudo"; "pacman"; "-Syu"; "vkbasalt"; "--noconfirm"])
    (except_CalledProcessError (fun _ =>
       slow_log "Pacman did not find/update vkbasalt. Checking for an AUR helper...";;
       helper_used <- resolve_aur_helper aur_helper;;
       match helper_used with
       | Some helper =>
           fresh <- is_vkbasalt_up_to_date_with_aur helper;;
           if fresh then
             slow_log ("vkbasalt is already installed and up-to-date via " ^^ helper ^^ ".")
           else
             slow_log ("Installing/updating vkbasalt via " ^^ helper ^^ "...");;
             subprocess_run [helper; "-S"; "--needed"; "--noconfirm"; "vkbasalt"]
       | None =>
           slow_log "No AUR helper found. Please install vkbasalt manually."
       end)).

Definition install_vkbasalt (distro : string) (use_flatpak : bool)
    (flatpak_pkg aur_helper : string) : M W unit :=
  if use_flatpak then
    has_flatpak <- which "flatpak";;
    if negb has_flatpak then
      slow_log "Flatpak is not installed. Cannot proceed with Flatpak installation."
    else
      slow_log "Installing vkbasalt via Flatpak...";;
      subprocess_run ["flatpak"; "install"; "--user"; "--noninteractive"; "flathub";
                      flatpak_pkg]
  else
    arch_type <- machine;;
    slow_log ("System architecture detected: " ^^ arch_type);;
    if negb (String.eqb arch_type "x86_64") then
      slow_log ("Only 64-bit systems are supported. Your system architecture: "
                ^^ arch_type)
    else
      try_except
        (if String.eqb distro "debian" then
           slow_log "Installing vkbasalt via apt-get...";;
           subprocess_run ["sudo"; "apt-get"; "update"];;
           subprocess_run ["sudo"; "apt-get"; "install"; "-y"; "vkbasalt"]
         else if String.eqb distro "fedora" then
           slow_log "Installing vkbasalt via dnf...";;
           subprocess_run ["sudo"; "dnf"; "install"; "-y"; "vkbasalt"]
         else if String.eqb distro "arch" then
           install_arch aur_helper
         else if String.eqb distro "void" then
           slow_log "Installing vkbasalt via xbps-install...";;
           subprocess_run ["sudo"; "xbps-install"; "-S"; "vkbasalt"]
         else if String.eqb distro "solus" then
           slow_log "Installing vkbasalt via eopkg...";;
           subprocess_run ["sudo"; "eopkg"; "update"];;
           subprocess_run ["sudo"; "eopkg"; "install"; "vkbasalt"]
         else
           slow_log "Unsupported Linux distribution. Cannot install vkbasalt automatically.")
        (except_CalledProcessError (fun msg =>
           slow_log ("An error occurred during installation: " ^^ msg))).

(** *** [uninstall_vkbasalt] (lines 224-266) *)

Definition uninstall_arch (aur_helper : string) : M W unit :=
  slow_log "Uninstalling vkbasalt via pacman...";;
  try_except
    (subprocess_run ["sudo"; "pacman"; "-Rns"; "--noconfirm"; "vkbasalt"])
    (except_CalledProcessError (fun _ =>
       slow_log "Pacman removal failed. Checking for an AUR helper...";;
       helper_used <- resolve_aur_helper aur_helper;;
       match helper_used with
       | Some helper =>
           subprocess_run [helper; "-Rns"; "--noconfirm"; "vkbasalt"]
       | None =>
           slow_log "No AUR helper found. Cannot uninstall vkbasalt automatically for Arch."
       end)).

Definition uninstall_vkbasalt (distro : string) (use_flatpak : bool)
    (flatpak_pkg aur_helper : string) : M W unit :=
  if use_flatpak then
    has_flatpak <- which "flatpak";;
    if negb has_flatpak then
      slow_log "Flatpak is not installed. Cannot proceed with uninstallation."
    else
      slow_log "Uninstalling vkbasalt via Flatpak...";;
      subprocess_run ["flatpak"; "uninstall"; "--user"; "-y"; flatpak_pkg]
  else
    try_except
      (if String.eqb distro "debian" then
         slow_log "Uninstalling vkbasalt via apt-get...";;
         subprocess_run ["sudo"; "apt-get"; "remove"; "-y"; "vkbasalt"]
       else if String.eqb distro "fedora" then
         slow_log "Uninstalling vkbasalt via dnf...";;
         subprocess_run ["sudo"; "dnf"; "remove"; "-y"; "vkbasalt"]
       else if String.eqb distro "arch" then
         uninstall_arch aur_helper
       else if String.eqb distro "void" then
         slow_log "Uninstalling vkbasalt via xbps-remove...";;
         subprocess_run ["sudo"; "xbps-remove"; "-R"; "vkbasalt"]
       else if String.eqb distro "solus" then
         slow_log "Uninstalling vkbasalt via eopkg...";;
         subprocess_run ["sudo"; "eopkg"; "remove"; "vkbasalt"]
       else
         slow_log "Unsupported Linux distribution. Cannot uninstall vkbasalt automatically.")
      (except_CalledProcessError (fun msg =>
         slow_log ("An error occurred during uninstallation: " ^^ msg))).

(** *** [main] (lines 376-430) *)

(** The three provisioning calls that end every install-mode path. *)
Definition provisioning : M W unit :=
  setup_vkbasalt_config;;
  create_pyroclast_directories;;
  prompt_and_download_assets.

(** Lines 400-404: the distribution of the run. *)
Definition main_distro (args : Args) : M W string :=
  detected <- detect_distro;;
  distro <-
    (match force_distro args with
     | Some forced =>
         if truthy forced then
           let distro := Py.lower forced in
           slow_log ("Overriding detected distro with: " ^^ distro);;
           ret distro
         else ret detected
     | None => ret detected
     end);;
  slow_log ("Detected distribution: " ^^ distro);;
  ret distro.

(** Lines 426-430: where every path that does not skip ends up. *)
Definition main_proceed (distro : string) (args : Args) : M W unit :=
  slow_log "vkBasalt is not installed or is outdated. Proceeding with installation...";;
  install_vkbasalt distro (flatpak args) (flatpak_pkg args) (aur_helper args);;
  provisioning.

(** Lines 411-430: install mode. *)
Definition main_install (distro : string) (args : Args) : M W unit :=
  present <- is_vkbasalt_installed;;
  if present then
    if String.eqb distro "arch" && truthy (aur_helper args) then
      fresh <- is_vkbasalt_up_to_date_with_aur (aur_helper args);;
      if fresh then
        slow_log "vkBasalt is installed and up-to-date. Skipping installation.";;
        provisioning
      else main_proceed distro args
    else
      slow_log "vkBasalt is already installed. Skipping installation.";;
      provisioning
  else main_proceed distro args.

Definition main (args : Args) : M W unit :=
  set_SLOW_MODE (slow args);;
  slow_mode <- get_SLOW_MODE;;
  (if slow_mode
   then slow_log "Slow logging mode enabled."
   else slow_log "Normal logging mode.");;
  (match custom_path args with
   | Some path =>
       if truthy path then
         set_CUSTOM_PATH (Some path);;
         slow_log ("Using custom detection path: " ^^ path)
       else ret tt
   | None => ret tt
   end);;
  distro <- main_distro args;;
  if uninstall args then
    slow_log "Uninstall mode activated.";;
    uninstall_vkbasalt distro (flatpak args) (flatpak_pkg args) (aur_helper args)
  else main_install distro args.

End Script.

(* ================================================================== *)
(** ** Traces: what a computation may add *)
(* ================================================================== *)

Lemma commands_app (a b : list event) : commands (a ++ b) = commands a ++ commands b.
Proof.
  induction a as [|e a IH]; simpl; [reflexivity|].
  destruct e; simpl; rewrite IH; reflexivity.
Qed.

Lemma printed_app (a b : list event) : printed (a ++ b) = printed a ++ printed b.
Proof.
  induction a as [|e a IH]; simpl; [reflexivity|].
  destruct e; simpl; rewrite IH; reflexivity.
Qed.

Lemma provisioned_app (a b : list event) :
  provisioned (a ++ b) = provisioned a ++ provisioned b.
Proof.
  induction a as [|e a IH]; simpl; [reflexivity|].
  destruct e; simpl; rewrite IH; reflexivity.
Qed.

(** Events that only talk: messages and the pauses of slow mode. *)
Definition talk (e : event) : Prop :=
  match e with
  | Print _ | Sleep _ => True
  | _ => False
  end.

Lemma talk_commands (d : list event) : Forall talk d -> commands d = [].
Proof.
  induction 1 as [|e d He _ IH]; simpl; [reflexivity|].
  destruct e; simpl in *; tauto.
Qed.

Lemma talk_provisioned (d : list event) : Forall talk d -> provisioned d = [].
Proof.
  induction 1 as [|e d He _ IH]; simpl; [reflexivity|].
  destruct e; simpl in *; tauto.
Qed.

(** What [slow_log] adds to a trace: the message, and a pause in slow mode. *)
Definition logged (message : string) (slow_mode : bool) : list event :=
  Print message :: if slow_mode then [Sleep SLOW_DELAY] else [].
Arguments logged : simpl never.

Lemma commands_logged tr message b : commands (tr ++ logged message b) = commands tr.
Proof. rewrite commands_app. destruct b; simpl; apply app_nil_r. Qed.

Lemma printed_logged tr message b :
  printed (tr ++ logged message b) = printed tr ++ [message].
Proof. rewrite printed_app. destruct b; reflexivity. Qed.

Lemma provisioned_logged tr message b :
  provisioned (tr ++ logged message b) = provisioned tr.
Proof. rewrite provisioned_app. destruct b; simpl; apply app_nil_r. Qed.

Lemma talk_logged message b : Forall talk (logged message b).
Proof. destruct b; repeat constructor. Qed.

Ltac tidy_trace :=
  simpl;
  repeat (rewrite commands_logged || rewrite printed_logged
          || rewrite provisioned_logged || rewrite commands_app
          || rewrite printed_app || rewrite provisioned_app);
  simpl; rewrite <- ?app_assoc; simpl.

Section Frames.

Context {W : Type}.

(** [s'] is [s] with more trace, every new event satisfying [P]. *)
Definition grows (P : event -> Prop) (s s' : state W) : Prop :=
  exists d, trace s' = trace s ++ d /\ Forall P d.

Lemma grows_refl P s : grows P s s.
Proof. exists []. split; [symmetry; apply app_nil_r | constructor]. Qed.

Lemma grows_trans P s1 s2 s3 : grows P s1 s2 -> grows P s2 s3 -> grows P s1 s3.
Proof.
  intros [d1 [E1 F1]] [d2 [E2 F2]]. exists (d1 ++ d2). split.
  - rewrite E2, E1, app_assoc. reflexivity.
  - apply Forall_app. split; assumption.
Qed.

Lemma grows_weaken (P Q : event -> Prop) s s' :
  (forall e, P e -> Q e) -> grows P s s' -> grows Q s s'.
Proof.
  intros PQ [d [E F]]. exists d. split; [exact E|].
  eapply Forall_impl; [exact PQ | exact F].
Qed.

(** A computation that adds only [P]-events, whatever its outcome. *)
Definition emits {A} (P : event -> Prop) (m : M W A) : Prop :=
  forall s, grows P s (snd (m s)).

(** A computation that returns, leaves the world and the globals alone and
    only talks. *)
Definition quiet {A} (m : M W A) : Prop :=
  forall s, exists a s',
    m s = (Ret a, s') /\ world s' = world s /\
    SLOW_MODE s' = SLOW_MODE s /\ CUSTOM_PATH s' = CUSTOM_PATH s /\
    grows talk s s'.

(** [s'] is [s] after some talk: same world, same globals. *)
Definition after_talk (s s' : state W) : Prop :=
  world s' = world s /\ SLOW_MODE s' = SLOW_MODE s /\
  CUSTOM_PATH s' = CUSTOM_PATH s /\ grows talk s s'.

Lemma after_talk_commands s s' :
  after_talk s s' -> commands (trace s') = commands (trace s).
Proof.
  intros (_ & _ & _ & d & E & F). rewrite E, commands_app, (talk_commands d F).
  apply app_nil_r.
Qed.

Lemma after_talk_provisioned s s' :
  after_talk s s' -> provisioned (trace s') = provisioned (trace s).
Proof.
  intros (_ & _ & _ & d & E & F). rewrite E, provisioned_app, (talk_provisioned d F).
  apply app_nil_r.
Qed.

Lemma emits_weaken {A} (P Q : event -> Prop) (m : M W A) :
  (forall e, P e -> Q e) -> emits P m -> emits Q m.
Proof. intros PQ H s. eapply grows_weaken; [exact PQ | apply H]. Qed.

Lemma quiet_emits {A} (m : M W A) : quiet m -> emits talk m.
Proof.
  intros H s. destruct (H s) as (a & s' & E & _ & _ & _ & G).
  rewrite E. exact G.
Qed.

Lemma emits_ret {A} P (a : A) : emits P (ret a : M W A).
Proof. intro s. apply grows_refl. Qed.

Lemma emits_raise {A} P e : emits P (raise e : M W A).
Proof. intro s. apply grows_refl. Qed.

Lemma emits_lift {A} P (r : result A) : emits P (lift r : M W A).
Proof. intro s. apply grows_refl. Qed.

Lemma emits_bind {A B} P (m : M W A) (k : A -> M W B) :
  emits P m -> (forall a, emits P (k a)) -> emits P (bind m k).
Proof.
  intros Hm Hk s. unfold bind. specialize (Hm s).
  destruct (m s) as [[a|e] s1]; simpl in *.
  - eapply grows_trans; [exact Hm | apply Hk].
  - exact Hm.
Qed.

Lemma emits_try_except {A} P (m : M W A) (h : exn -> option (M W A)) :
  emits P m -> (forall e k, h e = Some k -> emits P k) -> emits P (try_except m h).
Proof.
  intros Hm Hh s. unfold try_except. specialize (Hm s).
  destruct (m s) as [[a|e] s1]; simpl in *; [exact Hm|].
  destruct (h e) as [k|] eqn:E; [|exact Hm].
  eapply grows_trans; [exact Hm | apply (Hh e k E)].
Qed.

Lemma emits_except_CalledProcessError {A} P (k : string -> M W A) :
  (forall msg, emits P (k msg)) ->
  forall e k', except_CalledProcessError k e = Some k' -> emits P k'.
Proof.
  intros Hk e k' E. destruct e; simpl in E; try discriminate.
  injection E as <-. apply Hk.
Qed.

Lemma emits_except_Exception {A} P (k : string -> M W A) :
  (forall msg, emits P (k msg)) ->
  forall e k', except_Exception k e = Some k' -> emits P k'.
Proof. intros Hk e k' E. injection E as <-. apply Hk. Qed.

Lemma emits_emit (P : event -> Prop) e : P e -> emits P (emit e : M W unit).
Proof.
  intros He s. exists [e]. split; [reflexivity | repeat constructor; exact He].
Qed.

Lemma slow_log_eq (message : string) (s : state W) :
  slow_log message s =
  (Ret tt, mkState (world s) (trace s ++ logged message (SLOW_MODE s))
             (SLOW_MODE s) (CUSTOM_PATH s)).
Proof.
  destruct s as [w tr [|] cp];
    unfold slow_log, logged, bind, emit, get_SLOW_MODE, ret; simpl.
  - rewrite <- app_assoc. reflexivity.
  - reflexivity.
Qed.

Lemma emits_slow_log (P : event -> Prop) message :
  P (Print message) -> P (Sleep SLOW_DELAY) -> emits P (slow_log message : M W unit).
Proof.
  intros HP HS s. rewrite slow_log_eq. simpl.
  eexists. split; [reflexivity|].
  destruct (SLOW_MODE s); repeat constructor; assumption.
Qed.






End Frames.

(* ================================================================== *)
(** ** Facts about the parts of the script *)
(* ================================================================== *)

Section Facts.

Context {W : Type} (os : OS W).



Lemma emits_external {A} (P : event -> Prop) e (call : W -> result A * W) :
  P e -> emits P (external e call).
Proof.
  intros He s. unfold external. destruct (call (world s)) as [r w']. simpl.
  exists [e]. split; [reflexivity | repeat constructor; exact He].
Qed.




End Facts.

(* ================================================================== *)
(** ** Distribution classification *)
(* ================================================================== *)

Example parse_os_release_ex :
  parse_os_release
    ["NAME=Manjaro Linux"; "ID=manjaro"; "ID_LIKE=arch"; "# a comment"] []
  = Ret [("name", "manjaro linux"); ("id", "manjaro"); ("id_like", "arch")].
Proof. reflexivity. Qed.

Example classify_ex_id_only : classify [("id", "linuxmint")] = "debian".
Proof. reflexivity. Qed.

Example classify_ex_unknown : classify [("id", "gentoo")] = "unknown".
Proof. reflexivity. Qed.

(** Once [id_like] has matched, the tests on [id] are skipped. *)
Lemma classify_id_skipped (info : Py.dict string) (distro : string) :
  String.eqb distro "unknown" = false -> classify_id info distro = distro.
Proof. intros H. unfold classify_id. rewrite H. reflexivity. Qed.

(** A mapping whose [id_like] holds both [debian] and [arch]. *)
Definition info_debian_arch : Py.dict string :=
  [("id", "arch"); ("id_like", "debian arch")].

(** C2, as stated, fails: [id_like] contains [arch] (and [id] is [arch]
    too), yet the earlier test for [debian] wins. *)
Lemma classify_arch_counterexample :
  Py.get info_debian_arch "id_like" = Some "debian arch" /\
  Py.contains "arch" "debian arch" = true /\
  classify info_debian_arch = "debian" /\
  classify info_debian_arch <> "arch".
Proof. repeat split; try reflexivity. discriminate. Qed.

(** C2 (amended): when the mapping has an [id_like] key, its value is
    tested by substring membership in the order debian, fedora, arch, void,
    solus and the first match is the result whatever [id] is; [id] decides
    only when none of the five matched.  In particular [id_like] containing
    [arch] gives arch when it contains neither [debian] nor [fedora]. *)
Theorem classify_id_like_priority (info : Py.dict string) (id_like : string) :
  Py.get info "id_like" = Some id_like ->
  (Py.contains "debian" id_like = true -> classify info = "debian") /\
  (Py.contains "debian" id_like = false ->
   Py.contains "fedora" id_like = true -> classify info = "fedora") /\
  (Py.contains "debian" id_like = false ->
   Py.contains "fedora" id_like = false ->
   Py.contains "arch" id_like = true -> classify info = "arch") /\
  (Py.contains "debian" id_like = false ->
   Py.contains "fedora" id_like = false ->
   Py.contains "arch" id_like = false ->
   Py.contains "void" id_like = true -> classify info = "void") /\
  (Py.contains "debian" id_like = false ->
   Py.contains "fedora" id_like = false ->
   Py.contains "arch" id_like = false ->
   Py.contains "void" id_like = false ->
   Py.contains "solus" id_like = true -> classify info = "solus") /\
  (Py.contains "debian" id_like = false ->
   Py.contains "fedora" id_like = false ->
   Py.contains "arch" id_like = false ->
   Py.contains "void" id_like = false ->
   Py.contains "solus" id_like = false ->
   classify info = classify_id info "unknown").
Proof.
  intros Hget. unfold classify, classify_id_like. rewrite Hget.
  repeat split; intros;
    repeat match goal with
           | H : Py.contains _ id_like = _ |- _ => rewrite H; clear H
           end;
    try (apply classify_id_skipped; reflexivity); reflexivity.
Qed.

Lemma classify_id_like_priority_witness :
  classify [("id", "ubuntu"); ("id_like", "arch")] = "arch".
Proof.
  destruct (classify_id_like_priority [("id", "ubuntu"); ("id_like", "arch")] "arch"
              eq_refl) as (_ & _ & Harch & _).
  apply Harch; reflexivity.
Defined.

(** Without an [id_like] key the result is what the tests on [id] give. *)
Lemma classify_without_id_like (info : Py.dict string) :
  Py.get info "id_like" = None -> classify info = classify_id info "unknown".
Proof. intros H. unfold classify, classify_id_like. rewrite H. reflexivity. Qed.

(* ================================================================== *)
(** ** The unpacking of line 82 never fails *)
(* ================================================================== *)

Lemma contains_char_has_char (c : ascii) (s : string) :
  Py.contains (String c EmptyString) s = Py.has_char c s.
Proof.
  induction s as [|a s IH]; simpl; [reflexivity|].
  rewrite IH. destruct (ascii_dec c a) as [->|NE].
  - rewrite Ascii.eqb_refl. destruct s; reflexivity.
  - assert (E : Ascii.eqb a c = false) by (apply Ascii.eqb_neq; congruence).
    rewrite E. reflexivity.
Qed.

Lemma has_char_lstrip (p : ascii -> bool) (c : ascii) (s : string) :
  p c = false -> Py.has_char c s = true -> Py.has_char c (Py.lstrip_by p s) = true.
Proof.
  intros Hp. induction s as [|a s IH]; simpl; intros H; [discriminate|].
  destruct (p a) eqn:Ea; [|exact H].
  apply IH. destruct (Ascii.eqb_spec a c) as [->|_]; [congruence | exact H].
Qed.

Lemma has_char_rstrip (p : ascii -> bool) (c : ascii) (s : string) :
  p c = false -> Py.has_char c s = true -> Py.has_char c (Py.rstrip_by p s) = true.
Proof.
  intros Hp. induction s as [|a s IH]; simpl; intros H; [discriminate|].
  destruct (Ascii.eqb_spec a c) as [->|NE]; simpl in H.
  - rewrite Hp. simpl. rewrite Ascii.eqb_refl. reflexivity.
  - specialize (IH H). destruct (Py.rstrip_by p s) as [|b t]; [discriminate|].
    rewrite andb_false_r. simpl. simpl in IH. rewrite IH. apply orb_true_r.
Qed.

Lemma split1_has_char (c : ascii) (s : string) :
  Py.has_char c s = true -> exists a b, Py.split1 c s = Some (a, b).
Proof.
  induction s as [|d s IH]; simpl; intros H; [discriminate|].
  destruct (Ascii.eqb d c); [eexists; eexists; reflexivity|].
  destruct (IH H) as (a & b & E). rewrite E. eexists; eexists; reflexivity.
Qed.

(** A line that holds the equals sign still holds it once stripped, so
    line 82 always unpacks two values: no [ValueError]. *)
Lemma parse_os_release_total (lines : list string) (info : Py.dict string) :
  exists info', parse_os_release lines info = Ret info'.
Proof.
  revert info. induction lines as [|line rest IH]; intros info; simpl;
    [eexists; reflexivity|].
  destruct (Py.contains "=" line) eqn:E; [|apply IH].
  rewrite contains_char_has_char in E.
  destruct (split1_has_char "=" (Py.strip line)) as (key & value & Hsplit).
  { unfold Py.strip. apply has_char_rstrip; [reflexivity|].
    apply has_char_lstrip; [reflexivity | exact E]. }
  rewrite Hsplit. apply IH.
Qed.

(* ================================================================== *)
(** ** Worlds for examples *)
(* ================================================================== *)

(** An operating system that never changes: the names on PATH, the files
    that exist, the machine, the os-release file, and what every command
    does. *)
Definition static_os (path files : list string) (arch : string)
    (release : result (list string))
    (runs : list string -> result unit)
    (outputs : list string -> result string) : OS unit :=
  {| os_which := fun _ name => mem name path;
     os_path_exists := fun _ p => mem p files;
     os_machine := fun _ => arch;
     os_release := fun _ => release;
     os_run := fun w argv => (runs argv, w);
     os_check_output := fun w argv => (outputs argv, w);
     os_provision := fun w _ => (Ret tt, w) |}.

Definition default_args : Args :=
  mkArgs false None false false "org.vkbasalt.vkbasalt" None EmptyString.

(* ================================================================== *)
(** ** The up-to-date check *)
(* ================================================================== *)

Definition query_installed (helper : string) : list string := [helper; "-Q"; "vkbasalt"].
Definition query_available (helper : string) : list string := [helper; "-Si"; "vkbasalt"].

(** The test of line 154 on one line of the query-available output. *)
Definition version_line (line : string) : bool :=
  Py.startswith "version" (Py.lower line).

Lemma latest_version_unbound (lines : list string) :
  find version_line lines = None -> latest_version lines = Ret None.
Proof.
  induction lines as [|l rest IH]; intros H; simpl in *; [reflexivity|].
  fold (version_line l). destruct (version_line l); [discriminate | apply IH; exact H].
Qed.

Lemma latest_version_found (lines : list string) (line before after : string) :
  find version_line lines = Some line ->
  Py.split1 ":" line = Some (before, after) ->
  latest_version lines = Ret (Some (Py.strip after)).
Proof.
  induction lines as [|l rest IH]; intros Hfind Hsplit; simpl in *; [discriminate|].
  fold (version_line l). destruct (version_line l).
  - injection Hfind as ->. rewrite Hsplit. reflexivity.
  - apply IH; assumption.
Qed.

Lemma latest_version_no_colon (lines : list string) (line : string) :
  find version_line lines = Some line ->
  Py.split1 ":" line = None ->
  latest_version lines = Raise IndexError.
Proof.
  induction lines as [|l rest IH]; intros Hfind Hsplit; simpl in *; [discriminate|].
  fold (version_line l). destruct (version_line l).
  - injection Hfind as ->. rewrite Hsplit. reflexivity.
  - apply IH; assumption.
Qed.

Ltac run_check :=
  unfold is_vkbasalt_up_to_date_with_aur, try_except, bind, lift, raise, ret,
    subprocess_check_output, external, query_installed, query_available in *;
  simpl in *.

Section UpToDate.

Context {W : Type} (os : OS W).

(** A non-zero exit of the first query is answered by [False]. *)
Lemma up_to_date_first_query_fails helper s msg w1 :
  os_check_output os (world s) (query_installed helper)
    = (Raise (CalledProcessError msg), w1) ->
  fst (is_vkbasalt_up_to_date_with_aur os helper s) = Ret false.
Proof. intros H. run_check. rewrite H. reflexivity. Qed.

(** So is a non-zero exit of the second query. *)
Lemma up_to_date_second_query_fails helper s out1 w1 v msg w2 :
  os_check_output os (world s) (query_installed helper) = (Ret out1, w1) ->
  installed_version out1 = Ret v ->
  os_check_output os w1 (query_available helper)
    = (Raise (CalledProcessError msg), w2) ->
  fst (is_vkbasalt_up_to_date_with_aur os helper s) = Ret false.
Proof.
  intros H1 Hv H2. run_check.
  rewrite H1; simpl. rewrite Hv; simpl. rewrite H2. reflexivity.
Qed.

(** C4 (the code at the failing input): when the helper executable does
    not exist, the first query raises [FileNotFoundError]; the handler of
    line 163 only takes [CalledProcessError], so the check does not return
    [False], it raises. *)
Theorem up_to_date_missing_helper_raises helper s msg w1 :
  os_check_output os (world s) (query_installed helper)
    = (Raise (FileNotFoundError msg), w1) ->
  fst (is_vkbasalt_up_to_date_with_aur os helper s) = Raise (FileNotFoundError msg).
Proof. intros H. run_check. rewrite H. reflexivity. Qed.

(** The check starts with the query-installed command, whatever follows. *)
Lemma up_to_date_first_command helper s :
  exists rest,
    commands (trace (snd (is_vkbasalt_up_to_date_with_aur os helper s)))
    = commands (trace s) ++ query_installed helper :: rest.
Proof.
  run_check.
  destruct (os_check_output os (world s) [helper; "-Q"; "vkbasalt"]) as [[out1|e] w1];
    simpl; [|destruct e; simpl; rewrite commands_app; eexists; reflexivity].
  destruct (installed_version out1) as [v|e]; simpl;
    [|destruct e; simpl; rewrite commands_app; eexists; reflexivity].
  destruct (os_check_output os w1 [helper; "-Si"; "vkbasalt"]) as [[out2|e] w2];
    simpl; [|destruct e; simpl; rewrite !commands_app, <- app_assoc; eexists; reflexivity].
  destruct (latest_version (Py.splitlines out2)) as [[latest|]|e]; simpl;
    [|rewrite !commands_app, <- app_assoc; eexists; reflexivity
     |destruct e; simpl; rewrite !commands_app, <- app_assoc; eexists; reflexivity].
  destruct (String.eqb v latest); rewrite slow_log_eq; simpl;
    rewrite !commands_app, <- !app_assoc; eexists; reflexivity.
Qed.

(** C9: when both queries are run and both succeed, and no line of the
    query-available output starts with [version] once lowered, the loop of
    lines 153-156 never binds [latest]; line 157 then raises the
    [NameError] of an unbound local, which the handler of line 163 does not
    take, so the check raises instead of answering. *)
Theorem up_to_date_unbound_latest helper s out1 w1 out2 w2 :
  os_check_output os (world s) (query_installed helper) = (Ret out1, w1) ->
  os_check_output os w1 (query_available helper) = (Ret out2, w2) ->
  commands (trace (snd (is_vkbasalt_up_to_date_with_aur os helper s)))
    = commands (trace s) ++ [query_installed helper; query_available helper] ->
  find version_line (Py.splitlines out2) = None ->
  fst (is_vkbasalt_up_to_date_with_aur os helper s) = Raise NameError.
Proof.
  intros H1 H2 Hboth Hnone. run_check. rewrite H1 in *; simpl in *.
  destruct (installed_version out1) as [v|e]; simpl in *.
  - rewrite H2; simpl. rewrite (latest_version_unbound _ Hnone). reflexivity.
  - exfalso. destruct e; simpl in Hboth; rewrite commands_app in Hboth;
      apply app_inv_head in Hboth; discriminate.
Qed.

(** C7 (amended): the installed version is the second whitespace-delimited
    token of the query-installed output; the available version is taken
    from the first line of the query-available output that starts with
    [version] once lowered (a prefix test on the line), as the stripped
    text after its first colon; the answer is [True] exactly when the two
    are the same string. *)
Theorem up_to_date_compares helper s out1 w1 name v rest out2 w2 line before after :
  os_check_output os (world s) (query_installed helper) = (Ret out1, w1) ->
  Py.split_ws (Py.strip out1) = name :: v :: rest ->
  os_check_output os w1 (query_available helper) = (Ret out2, w2) ->
  find version_line (Py.splitlines out2) = Some line ->
  Py.split1 ":" line = Some (before, after) ->
  exists answer,
    fst (is_vkbasalt_up_to_date_with_aur os helper s) = Ret answer /\
    (answer = true <-> v = Py.strip after).
Proof.
  intros H1 Htok H2 Hfind Hsplit.
  exists (String.eqb v (Py.strip after)). split; [|apply String.eqb_eq].
  run_check. rewrite H1; simpl.
  unfold installed_version. rewrite Htok; simpl. rewrite H2; simpl.
  rewrite (latest_version_found _ _ _ _ Hfind Hsplit); simpl.
  destruct (String.eqb v (Py.strip after)); rewrite slow_log_eq; reflexivity.
Qed.

End UpToDate.

(** *** The check on concrete outputs *)

Fixpoint argv_eqb (a b : list string) : bool :=
  match a, b with
  | [], [] => true
  | x :: a', y :: b' => String.eqb x y && argv_eqb a' b'
  | _, _ => false
  end.

Definition lines_text (lines : list string) : string :=
  Py.join (String Py.LF EmptyString) lines ^^ String Py.LF EmptyString.

(** A helper [yay] that reports [installed] for the installed package and
    prints [available] for the query-available command; any other command
    does not exist. *)
Definition yay_outputs (installed : string) (available : list string)
    (argv : list string) : result string :=
  if argv_eqb argv (query_installed "yay") then Ret (lines_text [installed])
  else if argv_eqb argv (query_available "yay") then Ret (lines_text available)
  else Raise (FileNotFoundError "[Errno 2] No such file or directory").

Definition yay_os (installed : string) (available : list string) : OS unit :=
  static_os ["yay"] [] "x86_64" (Ret ["ID=arch"]) (fun _ => Ret tt)
    (yay_outputs installed available).

Example up_to_date_same_version :
  fst (is_vkbasalt_up_to_date_with_aur
         (yay_os "vkbasalt 1.2.3" ["Name : vkbasalt"; "Version : 1.2.3"])
         "yay" (initial tt)) = Ret true.
Proof. reflexivity. Qed.

Example up_to_date_newer_version :
  fst (is_vkbasalt_up_to_date_with_aur
         (yay_os "vkbasalt 1.2.3" ["Name : vkbasalt"; "Version : 1.2.4"])
         "yay" (initial tt)) = Ret false.
Proof. reflexivity. Qed.

(** No semantic ordering: an older available version is also not equal. *)
Example up_to_date_older_version :
  fst (is_vkbasalt_up_to_date_with_aur
         (yay_os "vkbasalt 1.2.3" ["Version : 1.2.2"])
         "yay" (initial tt)) = Ret false.
Proof. reflexivity. Qed.

(** A line that starts with [version] and has no colon: [IndexError]. *)
Example up_to_date_version_without_colon :
  fst (is_vkbasalt_up_to_date_with_aur
         (yay_os "vkbasalt 1.2.3" ["Version 1.2.3"])
         "yay" (initial tt)) = Raise IndexError.
Proof. reflexivity. Qed.

(** A query-installed output of one token: [IndexError], and the second
    query is never run. *)
Example up_to_date_one_token :
  let r := is_vkbasalt_up_to_date_with_aur
             (yay_os "vkbasalt" ["Version : 1.2.3"]) "yay" (initial tt) in
  fst r = Raise IndexError /\ commands (trace (snd r)) = [query_installed "yay"].
Proof. split; reflexivity. Qed.

Lemma up_to_date_compares_witness :
  exists answer,
    fst (is_vkbasalt_up_to_date_with_aur
           (yay_os "vkbasalt 1.2.3" ["Name : vkbasalt"; "Version : 1.2.3"])
           "yay" (initial tt)) = Ret answer /\
    (answer = true <-> "1.2.3" = Py.strip " 1.2.3").
Proof.
  apply (up_to_date_compares
           (yay_os "vkbasalt 1.2.3" ["Name : vkbasalt"; "Version : 1.2.3"])
           "yay" (initial tt)
           (lines_text ["vkbasalt 1.2.3"]) tt "vkbasalt" "1.2.3" []
           (lines_text ["Name : vkbasalt"; "Version : 1.2.3"]) tt
           "Version : 1.2.3" "Version " " 1.2.3"); reflexivity.
Defined.

Lemma up_to_date_unbound_latest_witness :
  fst (is_vkbasalt_up_to_date_with_aur
         (yay_os "vkbasalt 1.2.3" ["Name : vkbasalt"; "Description : a layer"])
         "yay" (initial tt)) = Raise NameError.
Proof.
  apply (up_to_date_unbound_latest
           (yay_os "vkbasalt 1.2.3" ["Name : vkbasalt"; "Description : a layer"])
           "yay" (initial tt)
           (lines_text ["vkbasalt 1.2.3"]) tt
           (lines_text ["Name : vkbasalt"; "Description : a layer"]) tt); reflexivity.
Defined.

Lemma up_to_date_missing_helper_raises_witness :
  fst (is_vkbasalt_up_to_date_with_aur
         (yay_os "vkbasalt 1.2.3" ["Version : 1.2.3"]) "nosuch" (initial tt))
  = Raise (FileNotFoundError "[Errno 2] No such file or directory").
Proof.
  apply (up_to_date_missing_helper_raises
           (yay_os "vkbasalt 1.2.3" ["Version : 1.2.3"]) "nosuch" (initial tt)
           "[Errno 2] No such file or directory" tt).
  reflexivity.
Defined.

(** *** The available version as the specification words it *)

(** The wording under test: the first line whose key, the text before the
    first colon, equals [version] without regard to case (and to the
    padding around it), gives the stripped text after that colon. *)
Fixpoint spec_available_version (lines : list string) : option string :=
  match lines with
  | [] => None
  | line :: rest =>
      match Py.split1 ":" line with
      | Some (key, after) =>
          if String.eqb (Py.lower (Py.strip key)) "version"
          then Some (Py.strip after)
          else spec_available_version rest
      | None => spec_available_version rest
      end
  end.

Definition spec_is_up_to_date (installed_output available_output : string)
  : option bool :=
  match Py.split_ws installed_output,
        spec_available_version (Py.splitlines available_output) with
  | _ :: installed :: _, Some available => Some (String.eqb installed available)
  | _, _ => None
  end.

(** C7, as stated, fails: a line whose key only starts with [version]
    comes first.  The wording picks the line whose key is [Version] and
    finds the versions equal; the code stops at the first line and answers
    [False]. *)
Lemma up_to_date_key_counterexample :
  spec_is_up_to_date (lines_text ["vkbasalt 1.2.3"])
    (lines_text ["Versions:9"; "Version:1.2.3"]) = Some true /\
  fst (is_vkbasalt_up_to_date_with_aur
         (yay_os "vkbasalt 1.2.3" ["Versions:9"; "Version:1.2.3"])
         "yay" (initial tt)) = Ret false.
Proof. split; reflexivity. Qed.

(* ================================================================== *)
(** ** Install and uninstall dispatch *)
(* ================================================================== *)

Definition pacman_install : list string :=
  ["sudo"; "pacman"; "-Syu"; "vkbasalt"; "--noconfirm"].

Definition pacman_remove : list string :=
  ["sudo"; "pacman"; "-Rns"; "--noconfirm"; "vkbasalt"].

Definition helper_install (helper : string) : list string :=
  [helper; "-S"; "--needed"; "--noconfirm"; "vkbasalt"].

Definition helper_remove (helper : string) : list string :=
  [helper; "-Rns"; "--noconfirm"; "vkbasalt"].

(** The resolution order in words: the operator's helper if one was given
    and it resolves, else [yay] if it resolves, else [paru] if it
    resolves, else none. *)
Definition fallback_helper {W} (os : OS W) (w : W) (aur_helper : string)
  : option string :=
  if truthy aur_helper && os_which os w aur_helper then Some aur_helper
  else if os_which os w "yay" then Some "yay"
  else if os_which os w "paru" then Some "paru"
  else None.

Ltac run_script :=
  cbv beta iota zeta delta
    [install_vkbasalt install_arch uninstall_vkbasalt uninstall_arch
     try_except bind lift raise ret which machine subprocess_run external
     except_CalledProcessError];
  simpl.

Section Dispatch.

Context {W : Type} (os : OS W).

Lemma resolve_aur_helper_eq aur_helper s :
  resolve_aur_helper os aur_helper s = (Ret (fallback_helper os (world s) aur_helper), s).
Proof.
  unfold fallback_helper, resolve_aur_helper, first_resolving. run_script.
  destruct (truthy aur_helper); simpl.
  - destruct (os_which os (world s) aur_helper); simpl; [reflexivity|].
    destruct (os_which os (world s) "yay"); simpl; [reflexivity|].
    destruct (os_which os (world s) "paru"); reflexivity.
  - destruct (os_which os (world s) "yay"); simpl; [reflexivity|].
    destruct (os_which os (world s) "paru"); reflexivity.
Qed.

(** C3: when the native pacman action exits non-zero, the helper is the
    operator's if one was given and it resolves, else the first of [yay],
    [paru] that resolves; it is the helper the next command is run with.
    With no helper the action logs that none was found and runs no further
    command.  The same holds for install (here past the architecture gate)
    and for uninstall. *)
Theorem arch_fallback_resolution (pkg aur : string) (s : state W) :
  (forall msg w1,
     os_machine os (world s) = "x86_64" ->
     os_run os (world s) pacman_install = (Raise (CalledProcessError msg), w1) ->
     let r := install_vkbasalt os "arch" false pkg aur s in
     match fallback_helper os w1 aur with
     | Some helper =>
         exists rest,
           commands (trace (snd r))
           = commands (trace s) ++ pacman_install :: query_installed helper :: rest
     | None =>
         fst r = Ret tt /\
         commands (trace (snd r)) = commands (trace s) ++ [pacman_install] /\
         printed (trace (snd r))
         = printed (trace s) ++
           ["System architecture detected: x86_64";
            "Installing vkbasalt via pacman...";
            "Pacman did not find/update vkbasalt. Checking for an AUR helper...";
            "No AUR helper found. Please install vkbasalt manually."]
     end) /\
  (forall msg w1,
     os_run os (world s) pacman_remove = (Raise (CalledProcessError msg), w1) ->
     let r := uninstall_vkbasalt os "arch" false pkg aur s in
     match fallback_helper os w1 aur with
     | Some helper =>
         commands (trace (snd r))
         = commands (trace s) ++ [pacman_remove; helper_remove helper]
     | None =>
         fst r = Ret tt /\
         commands (trace (snd r)) = commands (trace s) ++ [pacman_remove] /\
         printed (trace (snd r))
         = printed (trace s) ++
           ["Uninstalling vkbasalt via pacman...";
            "Pacman removal failed. Checking for an AUR helper...";
            "No AUR helper found. Cannot uninstall vkbasalt automatically for Arch."]
     end).
Proof.
  split; intros msg w1.
  - intros Hm Hrun. run_script. rewrite Hm. simpl.
    rewrite !slow_log_eq. simpl. fold pacman_install. rewrite Hrun. simpl.
    rewrite slow_log_eq, resolve_aur_helper_eq. simpl.
    destruct (fallback_helper os w1 aur) as [helper|]; simpl.
    + match goal with
      | |- context [is_vkbasalt_up_to_date_with_aur os helper ?S] =>
          destruct (up_to_date_first_command os helper S) as [rest Hfirst];
          destruct (is_vkbasalt_up_to_date_with_aur os helper S) as [[fresh|e] s3]
      end; simpl in Hfirst; revert Hfirst; tidy_trace; intros Hfirst.
            * destruct fresh; rewrite slow_log_eq; simpl.
        -- tidy_trace. rewrite Hfirst. eexists; reflexivity.
        -- match goal with
           | |- context [os_run os ?w ?a] => destruct (os_run os w a) as [[[]|e] w4]
           end; [|destruct e]; simpl; rewrite ?slow_log_eq; tidy_trace;
             rewrite Hfirst, <- app_assoc; simpl; eexists; reflexivity.
      * destruct e; simpl; rewrite ?slow_log_eq; tidy_trace; rewrite Hfirst;
          eexists; reflexivity.
    + rewrite slow_log_eq. simpl. repeat split; tidy_trace; reflexivity.
  - intros Hrun. run_script. rewrite !slow_log_eq. simpl.
    fold pacman_remove. rewrite Hrun. simpl.
    rewrite slow_log_eq, resolve_aur_helper_eq. simpl.
    destruct (fallback_helper os w1 aur) as [helper|]; simpl.
    + match goal with
      | |- context [os_run os ?w ?a] => destruct (os_run os w a) as [[[]|e] w4]
      end; [|destruct e]; simpl; rewrite ?slow_log_eq; tidy_trace; reflexivity.
    + rewrite slow_log_eq. simpl. repeat split; tidy_trace; reflexivity.
Qed.

End Dispatch.

(** An Arch machine with [paru] on PATH where pacman has no such package:
    every [sudo] command exits non-zero, the helper's commands succeed. *)
Definition arch_os : OS unit :=
  static_os ["sudo"; "pacman"; "paru"; "flatpak"] [] "x86_64" (Ret ["ID=arch"])
    (fun argv =>
       match argv with
       | "sudo" :: _ =>
           Raise (CalledProcessError "Command 'sudo' returned non-zero exit status 1.")
       | _ => Ret tt
       end)
    (fun _ => Raise (CalledProcessError "Command 'paru' returned non-zero exit status 1.")).

Lemma arch_fallback_resolution_witness :
  (exists rest,
     commands (trace (snd (install_vkbasalt arch_os "arch" false
                             "org.vkbasalt.vkbasalt" EmptyString (initial tt))))
     = [] ++ pacman_install :: query_installed "paru" :: rest) /\
  commands (trace (snd (uninstall_vkbasalt arch_os "arch" false
                          "org.vkbasalt.vkbasalt" EmptyString (initial tt))))
  = [] ++ [pacman_remove; helper_remove "paru"].
Proof.
  destruct (arch_fallback_resolution arch_os "org.vkbasalt.vkbasalt" EmptyString
              (initial tt)) as [Hinstall Hremove].
  split.
  - exact (Hinstall "Command 'sudo' returned non-zero exit status 1." tt eq_refl eq_refl).
  - exact (Hremove "Command 'sudo' returned non-zero exit status 1." tt eq_refl).
Defined.

(** The order of the two built-in names, and the operator's name first. *)
Example fallback_helper_order :
  fallback_helper (static_os ["paru"; "yay"] [] "x86_64" (Ret []) (fun _ => Ret tt)
                     (fun _ => Ret EmptyString)) tt EmptyString = Some "yay" /\
  fallback_helper (static_os ["paru"; "yay"] [] "x86_64" (Ret []) (fun _ => Ret tt)
                     (fun _ => Ret EmptyString)) tt "paru" = Some "paru" /\
  fallback_helper (static_os ["paru"; "yay"] [] "x86_64" (Ret []) (fun _ => Ret tt)
                     (fun _ => Ret EmptyString)) tt "pikaur" = Some "yay" /\
  fallback_helper (static_os [] [] "x86_64" (Ret []) (fun _ => Ret tt)
                     (fun _ => Ret EmptyString)) tt "pikaur" = None.
Proof. repeat split. Qed.

(* ================================================================== *)
(** ** The distribution of a run, and the shape of [main] *)
(* ================================================================== *)

(** Closes [after_talk s s'] when [s'] is [s] with logged messages added. *)
Ltac solve_after_talk :=
  unfold after_talk; simpl; repeat split;
  eexists; split;
  [ rewrite <- ?app_assoc; reflexivity
  | repeat first [apply talk_logged | apply Forall_app; split] ].

Section Main.

Context {W : Type} (os : OS W).

(** What [detect_distro] returns in world [w]. *)
Definition detected_distro (w : W) : string :=
  match os_release os w with
  | Ret lines =>
      match parse_os_release lines [] with
      | Ret info => classify info
      | Raise _ => "unknown"
      end
  | Raise _ => "unknown"
  end.

(** The distribution [main] works with (lines 400-404). *)
Definition run_distro (w : W) (args : Args) : string :=
  match force_distro args with
  | Some forced => if truthy forced then Py.lower forced else detected_distro w
  | None => detected_distro w
  end.

Lemma detect_distro_value s :
  exists s', detect_distro os s = (Ret (detected_distro (world s)), s') /\ after_talk s s'.
Proof.
  unfold detect_distro, detected_distro.
  cbv beta iota zeta delta
    [try_except bind lift ret readlines_os_release except_Exception].
  rewrite slow_log_eq. simpl.
  destruct (os_release os (world s)) as [lines|e]; simpl.
  - destruct (parse_os_release lines []) as [info|e]; simpl;
      rewrite slow_log_eq; simpl; rewrite slow_log_eq; simpl;
      eexists; (split; [reflexivity | solve_after_talk]).
  - rewrite slow_log_eq; simpl; rewrite slow_log_eq; simpl;
      eexists; (split; [reflexivity | solve_after_talk]).
Qed.

Lemma main_distro_value args s :
  exists s',
    main_distro os args s = (Ret (run_distro (world s) args), s') /\ after_talk s s'.
Proof.
  unfold main_distro, run_distro.
  cbv beta iota zeta delta [bind ret].
  destruct (detect_distro_value s) as (s1 & E1 & Hw & Hs & Hc & d & Ed & Fd).
  rewrite E1.
  assert (Hfin : forall distro s2, after_talk s s2 ->
            exists s', (let (r, s3) := slow_log ("Detected distribution: " ^^ distro) s2 in
                        match r with
                        | Ret _ => (Ret distro, s3)
                        | Raise e => (Raise e, s3)
                        end) = (Ret distro, s') /\ after_talk s s').
  { intros distro s2 (Hw2 & Hs2 & Hc2 & d2 & E2 & F2). rewrite slow_log_eq.
    eexists. split; [reflexivity|]. unfold after_talk; simpl.
    repeat split; try assumption.
    exists (d2 ++ logged ("Detected distribution: " ^^ distro) (SLOW_MODE s2)).
    split; [rewrite E2, app_assoc; reflexivity|].
    apply Forall_app; split; [exact F2 | apply talk_logged]. }
  destruct (force_distro args) as [forced|]; simpl.
  - destruct (truthy forced); simpl.
    + rewrite slow_log_eq. apply Hfin. unfold after_talk; simpl.
      repeat split; try assumption.
      eexists. split; [rewrite Ed, <- app_assoc; reflexivity|].
      apply Forall_app; split; [exact Fd | apply talk_logged].
    + apply Hfin. repeat split; try assumption. exists d. split; assumption.
  - apply Hfin. repeat split; try assumption. exists d. split; assumption.
Qed.

(** [main] up to its mode switch: the globals are set from the command
    line, the distribution is settled, and nothing but talk has happened. *)
Lemma main_shape args s :
  exists s1,
    world s1 = world s /\ grows talk s s1 /\ SLOW_MODE s1 = slow args /\
    main os args s =
    (if uninstall args then
       bind (slow_log "Uninstall mode activated.")
            (fun _ => uninstall_vkbasalt os (run_distro (world s) args)
                        (flatpak args) (flatpak_pkg args) (aur_helper args))
     else main_install os (run_distro (world s) args) args) s1.
Proof.
  unfold main.
  cbv beta iota zeta delta [bind ret set_SLOW_MODE get_SLOW_MODE set_CUSTOM_PATH].
  simpl.
  destruct (slow args); rewrite slow_log_eq; simpl;
    (destruct (custom_path args) as [path|];
     [destruct (truthy path); [rewrite slow_log_eq|]|]); simpl;
    match goal with
    | |- context [main_distro os args ?S] =>
        destruct (main_distro_value args S) as (s1 & E & Hw & Hs & Hc & G);
        rewrite E
    end; simpl in *; exists s1;
    (split; [exact Hw|]); (split; [|split; [exact Hs | reflexivity]]);
    (eapply grows_trans; [|exact G]);
    (eexists; split; [simpl; rewrite <- ?app_assoc; reflexivity|]);
    repeat first [apply talk_logged | apply Forall_app; split].
Qed.

End Main.

(* ================================================================== *)
(** ** Uninstall mode *)
(* ================================================================== *)

(** The first thing the presence check does (line 119). *)
Definition presence_message : string :=
  "Checking if vkbasalt is installed (searching in PATH)...".

(** Events of a run that neither starts the presence check nor calls a
    provisioning function. *)
Definition no_check_no_provision (e : event) : Prop :=
  match e with
  | Print message => message <> presence_message
  | Provision _ => False
  | _ => True
  end.

(** The remove command of each family that has one (lines 235-262); for
    arch it is the first of at most two. *)
Definition native_remove (distro : string) : option (list string) :=
  if String.eqb distro "debian" then Some ["sudo"; "apt-get"; "remove"; "-y"; "vkbasalt"]
  else if String.eqb distro "fedora" then Some ["sudo"; "dnf"; "remove"; "-y"; "vkbasalt"]
  else if String.eqb distro "arch" then Some pacman_remove
  else if String.eqb distro "void" then Some ["sudo"; "xbps-remove"; "-R"; "vkbasalt"]
  else if String.eqb distro "solus" then Some ["sudo"; "eopkg"; "remove"; "vkbasalt"]
  else None.

Ltac emits_pure :=
  let s := fresh "s" in
  intro s; exists []; split; [simpl; symmetry; apply app_nil_r | constructor].

Ltac emits_go side :=
  repeat match goal with
         | |- emits _ (bind _ _) => apply emits_bind; [|intro]
         | |- emits _ (try_except _ _) =>
             apply emits_try_except;
             [|first [apply emits_except_CalledProcessError
                     |apply emits_except_Exception]; intro]
         | |- emits _ (slow_log _) => apply emits_slow_log; side
         | |- emits _ (external _ _) => apply emits_external; side
         | |- emits _ (ret _) => apply emits_ret
         | |- emits _ (raise _) => apply emits_raise
         | |- emits _ (lift _) => apply emits_lift
         | |- emits _ (which _ _) => emits_pure
         | |- emits _ (machine _) => emits_pure
         | |- emits _ (path_exists _ _) => emits_pure
         | |- emits _ (readlines_os_release _) => emits_pure
         | |- emits _ get_CUSTOM_PATH => emits_pure
         | |- emits _ get_SLOW_MODE => emits_pure
         | |- emits _ (set_SLOW_MODE _) => emits_pure
         | |- emits _ (set_CUSTOM_PATH _) => emits_pure
         | |- emits _ (if ?b then _ else _) => destruct b
         | |- emits _ (match ?x with _ => _ end) => destruct x
         end.

Ltac side_no_check :=
  unfold no_check_no_provision, presence_message; simpl;
  first [exact I | discriminate].

Section Uninstall.

Context {W : Type} (os : OS W).

Lemma emits_first_resolving P names : emits P (first_resolving os names).
Proof.
  induction names as [|h rest IH]; simpl; [apply emits_ret|].
  apply emits_bind; [emits_pure | intros [|]; [apply emits_ret | exact IH]].
Qed.

Lemma emits_resolve_aur_helper P aur : emits P (resolve_aur_helper os aur).
Proof.
  unfold resolve_aur_helper.
  apply emits_bind; [destruct (truthy aur); [emits_pure | apply emits_ret]|].
  intros [|]; [apply emits_ret | apply emits_first_resolving].
Qed.

Lemma uninstall_no_check distro use_flatpak pkg aur :
  emits no_check_no_provision (uninstall_vkbasalt os distro use_flatpak pkg aur).
Proof.
  unfold uninstall_vkbasalt, uninstall_arch, subprocess_run.
  emits_go side_no_check; apply emits_resolve_aur_helper.
Qed.

Lemma main_distro_no_check args : emits no_check_no_provision (main_distro os args).
Proof.
  unfold main_distro, detect_distro.
  emits_go side_no_check.
Qed.

Lemma main_uninstall_no_check args :
  uninstall args = true -> emits no_check_no_provision (main os args).
Proof.
  intros Hun. unfold main. rewrite Hun.
  emits_go side_no_check;
    first [apply main_distro_no_check | apply uninstall_no_check].
Qed.

Ltac destruct_run :=
  match goal with
  | |- context [os_run os ?w ?a] => destruct (os_run os w a) as [[[]|[]] ?]
  end.

(** Without Flatpak, a family that has a remove command runs it first, and
    outside arch runs nothing else. *)
Lemma uninstall_native_commands distro pkg aur s argv :
  native_remove distro = Some argv ->
  exists rest,
    commands (trace (snd (uninstall_vkbasalt os distro false pkg aur s)))
    = commands (trace s) ++ argv :: rest /\
    (String.eqb distro "arch" = false -> rest = []).
Proof.
  unfold native_remove. run_script.
  destruct (String.eqb distro "debian");
    [|destruct (String.eqb distro "fedora");
      [|destruct (String.eqb distro "arch");
        [|destruct (String.eqb distro "void");
          [|destruct (String.eqb distro "solus"); [|discriminate]]]]];
    intros [= <-]; rewrite slow_log_eq; simpl.
  3: { fold pacman_remove. destruct_run; simpl; rewrite ?slow_log_eq; simpl.
       2: { rewrite resolve_aur_helper_eq; simpl.
            destruct (fallback_helper os w aur) as [helper|]; simpl.
            - destruct_run; simpl; rewrite ?slow_log_eq; tidy_trace;
                (eexists; split; [reflexivity | discriminate]).
            - rewrite slow_log_eq; tidy_trace.
              eexists; split; [reflexivity | discriminate]. }
       all: tidy_trace; (eexists; split; [reflexivity | discriminate]). }
  all: destruct_run; simpl; rewrite ?slow_log_eq; tidy_trace;
    (eexists; split; [reflexivity | reflexivity]).
Qed.

(** With Flatpak the family plays no part: the one command, if [flatpak]
    resolves, is the Flatpak removal of the package (lines 228-233). *)
Lemma uninstall_flatpak_commands distro pkg aur s :
  commands (trace (snd (uninstall_vkbasalt os distro true pkg aur s)))
  = commands (trace s) ++
    (if os_which os (world s) "flatpak"
     then [["flatpak"; "uninstall"; "--user"; "-y"; pkg]] else []).
Proof.
  run_script.
  destruct (os_which os (world s) "flatpak"); simpl; rewrite slow_log_eq; simpl.
  - destruct_run; simpl; tidy_trace; reflexivity.
  - tidy_trace. symmetry. apply app_nil_r.
Qed.

(** No remove command of a family is the Flatpak one. *)
Lemma native_remove_not_flatpak distro argv pkg :
  native_remove distro = Some argv ->
  argv <> ["flatpak"; "uninstall"; "--user"; "-y"; pkg].
Proof.
  unfold native_remove, pacman_remove.
  destruct (String.eqb distro "debian");
    [|destruct (String.eqb distro "fedora");
      [|destruct (String.eqb distro "arch");
        [|destruct (String.eqb distro "void");
          [|destruct (String.eqb distro "solus"); [|discriminate]]]]];
    intros [= <-]; discriminate.
Qed.

(** C6 (amended): in uninstall mode the presence check is never started
    and no provisioning function runs, whatever the removal does; when
    Flatpak is not selected, the removal goes through the package manager
    of the family, first command first, and for fedora the run executes
    exactly the one command sudo dnf remove -y vkbasalt; when Flatpak is
    selected, the package manager of the family is not used: the run
    executes the Flatpak removal of the package if flatpak resolves, and
    no command at all if it does not. *)
Theorem uninstall_mode args s :
  uninstall args = true ->
  exists d,
    trace (snd (main os args s)) = trace s ++ d /\
    ~ In presence_message (printed d) /\
    provisioned d = [] /\
    (flatpak args = false ->
     forall argv, native_remove (run_distro os (world s) args) = Some argv ->
       exists rest, commands d = argv :: rest) /\
    (flatpak args = false ->
     run_distro os (world s) args = "fedora" ->
     commands d = [["sudo"; "dnf"; "remove"; "-y"; "vkbasalt"]]) /\
    (flatpak args = true ->
     commands d
     = (if os_which os (world s) "flatpak"
        then [["flatpak"; "uninstall"; "--user"; "-y"; flatpak_pkg args]]
        else []) /\
     forall distro argv, native_remove distro = Some argv -> ~ In argv (commands d)).
Proof.
  intros Hun.
  destruct (main_uninstall_no_check args Hun s) as (d & Ed & Fd).
  exists d. split; [exact Ed|].
  assert (Hflat : flatpak args = true ->
            commands d
            = (if os_which os (world s) "flatpak"
               then [["flatpak"; "uninstall"; "--user"; "-y"; flatpak_pkg args]]
               else [])).
  { intros Hfp.
    destruct (main_shape os args s) as (s1 & Hw & G & _ & Emain).
    rewrite Hun, Hfp in Emain.
    assert (Hs1 : commands (trace s1) = commands (trace s)).
    { destruct G as (d1 & E1 & F1).
      rewrite E1, commands_app, (talk_commands d1 F1). apply app_nil_r. }
    assert (Hall : commands (trace (snd (main os args s)))
                   = commands (trace s) ++
                     (if os_which os (world s) "flatpak"
                      then [["flatpak"; "uninstall"; "--user"; "-y"; flatpak_pkg args]]
                      else [])).
    { pose proof (uninstall_flatpak_commands (run_distro os (world s) args)
                    (flatpak_pkg args) (aur_helper args)
                    (snd (slow_log "Uninstall mode activated." s1))) as Hrun.
      rewrite Emain. unfold bind at 1. rewrite slow_log_eq in *. simpl in *.
      rewrite Hrun. tidy_trace. rewrite Hs1, Hw. reflexivity. }
    rewrite Ed, commands_app in Hall. apply app_inv_head in Hall. exact Hall. }
  assert (Hcmd : flatpak args = false ->
            forall argv, native_remove (run_distro os (world s) args) = Some argv ->
            exists rest, commands d = argv :: rest /\
              (String.eqb (run_distro os (world s) args) "arch" = false -> rest = [])).
  { intros Hfp argv Hnat.
    destruct (main_shape os args s) as (s1 & Hw & G & _ & Emain).
    rewrite Hun, Hfp in Emain.
    destruct (uninstall_native_commands (run_distro os (world s) args)
                (flatpak_pkg args) (aur_helper args)
                (snd (slow_log "Uninstall mode activated." s1)) argv Hnat)
      as (rest & Hrest & Harch).
    exists rest. split; [|exact Harch].
    assert (Hs1 : commands (trace s1) = commands (trace s)).
    { destruct G as (d1 & E1 & F1).
      rewrite E1, commands_app, (talk_commands d1 F1). apply app_nil_r. }
    assert (Hall : commands (trace (snd (main os args s)))
                   = commands (trace s) ++ argv :: rest).
    { rewrite Emain. unfold bind at 1. rewrite slow_log_eq in *. simpl in *.
      rewrite Hrest. tidy_trace. rewrite Hs1. reflexivity. }
    rewrite Ed, commands_app in Hall. apply app_inv_head in Hall. exact Hall. }
  repeat split.
  - intros Hin. clear Hflat Hcmd Ed. induction Fd as [|e d He _ IH]; [exact Hin|].
    destruct e; simpl in *; try (apply IH; exact Hin).
    destruct Hin as [Heq|Hin]; [exact (He Heq) | exact (IH Hin)].
  - clear Hflat Hcmd Ed. induction Fd as [|e d He _ IH]; [reflexivity|].
    destruct e; simpl in *; try exact IH. destruct He.
  - intros Hfp argv Hnat. destruct (Hcmd Hfp argv Hnat) as (rest & H & _).
    exists rest. exact H.
  - intros Hfp Hfed.
    destruct (Hcmd Hfp ["sudo"; "dnf"; "remove"; "-y"; "vkbasalt"]) as (rest & H & Hnil).
    + rewrite Hfed. reflexivity.
    + rewrite H, Hnil; [reflexivity | rewrite Hfed; reflexivity].
  - exact (Hflat H).
  - intros distro argv Hnat Hin. rewrite (Hflat H) in Hin.
    destruct (os_which os (world s) "flatpak"); [|exact Hin].
    destruct Hin as [Heq|[]].
    exact (native_remove_not_flatpak distro argv (flatpak_pkg args) Hnat (eq_sym Heq)).
Qed.

End Uninstall.

(** A Fedora machine with [flatpak] on PATH where every command succeeds. *)
Definition fedora_os : OS unit :=
  static_os ["sudo"; "dnf"; "flatpak"] [] "x86_64"
    (Ret ["NAME=Fedora Linux"; "ID=fedora"])
    (fun _ => Ret tt)
    (fun _ => Raise (FileNotFoundError "[Errno 2] No such file or directory")).

Definition uninstall_args : Args :=
  mkArgs false None true false "org.vkbasalt.vkbasalt" None EmptyString.

Definition uninstall_flatpak_args : Args :=
  mkArgs false None true true "org.vkbasalt.vkbasalt" None EmptyString.

Example uninstall_fedora_run :
  main fedora_os uninstall_args (initial tt)
  = (Ret tt,
     mkState tt
       [Print "Normal logging mode.";
        Print "Detecting Linux distribution by reading /etc/os-release...";
        Print ("Parsed /etc/os-release: "
               ^^ Py.str_dict [("name", "fedora linux"); ("id", "fedora")]);
        Print "Determined distribution: fedora";
        Print "Detected distribution: fedora";
        Print "Uninstall mode activated.";
        Print "Uninstalling vkbasalt via dnf...";
        Run ["sudo"; "dnf"; "remove"; "-y"; "vkbasalt"]]
       false None).
Proof. reflexivity. Qed.

(** C6, as stated, fails: uninstall is requested on a Fedora machine, and
    with the Flatpak switch the one command of the run is not the dnf
    removal of the family but a flatpak one. *)
Lemma uninstall_flatpak_counterexample :
  uninstall uninstall_flatpak_args = true /\
  run_distro fedora_os tt uninstall_flatpak_args = "fedora" /\
  commands (trace (snd (main fedora_os uninstall_flatpak_args (initial tt))))
  = [["flatpak"; "uninstall"; "--user"; "-y"; "org.vkbasalt.vkbasalt"]].
Proof. repeat split. Qed.

Lemma uninstall_mode_witness :
  exists d,
    trace (snd (main fedora_os uninstall_args (initial tt))) = [] ++ d /\
    ~ In presence_message (printed d) /\
    provisioned d = [] /\
    commands d = [["sudo"; "dnf"; "remove"; "-y"; "vkbasalt"]].
Proof.
  destruct (uninstall_mode fedora_os uninstall_args (initial tt) eq_refl)
    as (d & Ed & Hcheck & Hprov & _ & Hfedora & _).
  exists d. repeat split; try assumption.
  apply Hfedora; reflexivity.
Defined.

(* ================================================================== *)
(** ** The architecture gate *)
(* ================================================================== *)

(** The same operating system reporting another machine. *)
Definition with_machine {W} (m : W -> string) (os : OS W) : OS W :=
  {| os_which := os_which os;
     os_path_exists := os_path_exists os;
     os_machine := m;
     os_release := os_release os;
     os_run := os_run os;
     os_check_output := os_check_output os;
     os_provision := os_provision os |}.

Definition any_event (e : event) : Prop := True.

Ltac side_any := exact I.

Section Gate.

Context {W : Type} (os : OS W).

Lemma up_to_date_emits_any helper :
  emits any_event (is_vkbasalt_up_to_date_with_aur os helper).
Proof.
  unfold is_vkbasalt_up_to_date_with_aur, subprocess_check_output.
  emits_go side_any.
Qed.

(** Without Flatpak, the first thing [install_vkbasalt] adds to the trace
    is the message that reports the machine (lines 177-178). *)
Lemma install_gate_first distro pkg aur s :
  exists rest,
    trace (snd (install_vkbasalt os distro false pkg aur s))
    = trace s
      ++ logged ("System architecture detected: " ^^ os_machine os (world s))
                (SLOW_MODE s)
      ++ rest.
Proof.
  unfold install_vkbasalt. unfold bind at 1 2. unfold machine. simpl.
  rewrite slow_log_eq. simpl.
    match goal with
  | |- context [snd (?m ?S)] =>
      assert (H : emits any_event m);
      [|destruct (H S) as (d & Ed & _); rewrite Ed; simpl;
        rewrite <- app_assoc; exists d; reflexivity]
  end.
  unfold install_arch, subprocess_run.
  emits_go side_any;
    first [apply emits_resolve_aur_helper | apply up_to_date_emits_any].
Qed.

(** C8: without Flatpak, [install_vkbasalt] reads the machine before
    anything else, and on a machine other than x86_64 it returns without
    running any command; [uninstall_vkbasalt] and the Flatpak install never
    look at the machine, they behave the same whatever it is. *)
Theorem architecture_gate distro pkg aur s :
  (exists rest,
     trace (snd (install_vkbasalt os distro false pkg aur s))
     = trace s
       ++ logged ("System architecture detected: " ^^ os_machine os (world s))
                 (SLOW_MODE s)
       ++ rest) /\
  (os_machine os (world s) <> "x86_64" ->
   let r := install_vkbasalt os distro false pkg aur s in
   fst r = Ret tt /\ world (snd r) = world s /\
   commands (trace (snd r)) = commands (trace s)) /\
  (forall m use_flatpak,
     uninstall_vkbasalt (with_machine m os) distro use_flatpak pkg aur s
     = uninstall_vkbasalt os distro use_flatpak pkg aur s) /\
  (forall m,
     install_vkbasalt (with_machine m os) distro true pkg aur s
     = install_vkbasalt os distro true pkg aur s).
Proof.
  split; [apply install_gate_first|]. split; [|split].
  - intros Hm. run_script.
    destruct (String.eqb_spec (os_machine os (world s)) "x86_64") as [E|_];
      [contradiction|]. simpl.
    rewrite !slow_log_eq. simpl. repeat split. tidy_trace. reflexivity.
  - intros m use_flatpak. reflexivity.
  - intros m. reflexivity.
Qed.

End Gate.

(** A 64-bit ARM Debian machine where every command succeeds. *)
Definition debian_arm_os : OS unit :=
  static_os ["sudo"; "apt-get"] [] "aarch64" (Ret ["ID=debian"])
    (fun _ => Ret tt)
    (fun _ => Raise (FileNotFoundError "[Errno 2] No such file or directory")).

Example install_debian_x86_64 :
  commands (trace (snd (install_vkbasalt (with_machine (fun _ => "x86_64") debian_arm_os)
                          "debian" false "org.vkbasalt.vkbasalt" EmptyString (initial tt))))
  = [["sudo"; "apt-get"; "update"]; ["sudo"; "apt-get"; "install"; "-y"; "vkbasalt"]].
Proof. reflexivity. Qed.

Lemma architecture_gate_witness :
  let r := install_vkbasalt debian_arm_os "debian" false "org.vkbasalt.vkbasalt"
             EmptyString (initial tt) in
  fst r = Ret tt /\ world (snd r) = tt /\ commands (trace (snd r)) = [].
Proof.
  destruct (architecture_gate debian_arm_os "debian" "org.vkbasalt.vkbasalt"
              EmptyString (initial tt)) as (_ & Hgate & _).
  apply Hgate. discriminate.
Defined.

(* ================================================================== *)
(** ** A forced distribution *)
(* ================================================================== *)

Definition families : list string := ["debian"; "fedora"; "arch"; "void"; "solus"].

Section Forced.

Context {W : Type} (os : OS W).



End Forced.




(* ================================================================== *)
(** ** Install mode *)
(* ================================================================== *)

Definition flatpak_install (pkg : string) : list string :=
  ["flatpak"; "install"; "--user"; "--noninteractive"; "flathub"; pkg].


Section InstallMode.

Context {W : Type} (os : OS W).



(** Provisioning starts with [setup_vkbasalt_config] and runs no command. *)
Lemma provisioning_runs s :
  commands (trace (snd (provisioning os s))) = commands (trace s) /\
  exists rest,
    provisioned (trace (snd (provisioning os s)))
    = provisioned (trace s) ++ SetupConfig :: rest.
Proof.
  unfold provisioning, setup_vkbasalt_config, create_pyroclast_directories,
    prompt_and_download_assets, bind, external.
  destruct (os_provision os (world s) SetupConfig) as [[[]|e] w1]; simpl;
    [destruct (os_provision os w1 CreateDirectories) as [[[]|e] w2]; simpl;
     [destruct (os_provision os w2 PromptDownload) as [r w3]; simpl|]|];
    (split; [tidy_trace; rewrite ?app_nil_r; reflexivity
            |tidy_trace; eexists; reflexivity]).
Qed.







End InstallMode.

(** An Arch machine with vkbasalt and the helper [yay] on PATH; the
    installed and the available version are the same. *)
Definition arch_present_os : OS unit :=
  static_os ["vkbasalt"; "yay"; "sudo"; "pacman"] [] "x86_64" (Ret ["ID=arch"])
    (fun _ => Ret tt)
    (yay_outputs "vkbasalt 0.3.2.10-1" ["Name : vkbasalt"; "Version : 0.3.2.10-1"]).

Definition helper_args (helper : string) : Args :=
  mkArgs false None false false "org.vkbasalt.vkbasalt" None helper.



(** Without an operator-supplied helper the same machine skips at once. *)
Example install_mode_no_helper :
  let r := main arch_present_os default_args (initial tt) in
  fst r = Ret tt /\ commands (trace (snd r)) = [] /\
  provisioned (trace (snd r)) = [SetupConfig; CreateDirectories; PromptDownload].
Proof. repeat split. Qed.

(** A stale version with the operator's helper: the run goes on to install. *)
Example install_mode_stale :
  commands (trace (snd (main (static_os ["vkbasalt"; "yay"] [] "x86_64" (Ret ["ID=arch"])
                                (fun _ => Ret tt)
                                (yay_outputs "vkbasalt 1.2.3" ["Version : 1.2.4"]))
                          (helper_args "yay") (initial tt))))
  = [query_installed "yay"; query_available "yay"; pacman_install].
Proof. reflexivity. Qed.

(* ================================================================== *)
(** ** Error containment *)
(* ================================================================== *)

Section Containment.

Context {W : Type} (os : OS W).

(** The native install path takes a non-zero exit (lines 183, 220-221). *)
Lemma install_native_failure_contained pkg aur s msg w1 :
  os_machine os (world s) = "x86_64" ->
  os_run os (world s) ["sudo"; "dnf"; "install"; "-y"; "vkbasalt"]
    = (Raise (CalledProcessError msg), w1) ->
  fst (install_vkbasalt os "fedora" false pkg aur s) = Ret tt.
Proof.
  intros Hm Hrun. run_script. rewrite Hm. simpl. rewrite !slow_log_eq. simpl.
  rewrite Hrun. simpl. rewrite slow_log_eq. reflexivity.
Qed.

(** The Flatpak path (lines 169-175) is outside the [try]: whatever the
    flatpak command raises, [install_vkbasalt] raises. *)
Lemma install_flatpak_failure_escapes distro pkg aur s e w1 :
  os_which os (world s) "flatpak" = true ->
  os_run os (world s) (flatpak_install pkg) = (Raise e, w1) ->
  fst (install_vkbasalt os distro true pkg aur s) = Raise e.
Proof.
  intros Hwhich Hrun. run_script. rewrite Hwhich. simpl. rewrite slow_log_eq. simpl.
  fold (flatpak_install pkg). rewrite Hrun. reflexivity.
Qed.

(** And then [main] stops before provisioning. *)
Lemma main_proceed_flatpak_failure distro args s e w1 :
  flatpak args = true ->
  os_which os (world s) "flatpak" = true ->
  os_run os (world s) (flatpak_install (flatpak_pkg args)) = (Raise e, w1) ->
  fst (main_proceed os distro args s) = Raise e /\
  provisioned (trace (snd (main_proceed os distro args s))) = provisioned (trace s).
Proof.
  intros Hfp Hwhich Hrun. unfold main_proceed. rewrite Hfp.
  run_script. rewrite !slow_log_eq. simpl. rewrite Hwhich. simpl.
  rewrite slow_log_eq. simpl. fold (flatpak_install (flatpak_pkg args)).
  rewrite Hrun. simpl. split; [reflexivity | tidy_trace; apply app_nil_r].
Qed.

End Containment.

(** A Fedora machine with [flatpak] on PATH and vkbasalt absent, where the
    flatpak install exits non-zero. *)
Definition flatpak_failing_os : OS unit :=
  static_os ["flatpak"; "sudo"; "dnf"] [] "x86_64" (Ret ["ID=fedora"])
    (fun argv =>
       match argv with
       | "flatpak" :: _ =>
           Raise (CalledProcessError "Command 'flatpak' returned non-zero exit status 1.")
       | _ => Ret tt
       end)
    (fun _ => Raise (FileNotFoundError "[Errno 2] No such file or directory")).

Definition flatpak_args : Args :=
  mkArgs false None false true "org.vkbasalt.vkbasalt" None EmptyString.

(** C5 (the code at the failing input): an install-mode run with the
    Flatpak switch whose flatpak command exits non-zero.  The
    [CalledProcessError] leaves [main]; no provisioning function is
    called. *)
Theorem flatpak_failure_aborts_run :
  let r := main flatpak_failing_os flatpak_args (initial tt) in
  fst r = Raise (CalledProcessError "Command 'flatpak' returned non-zero exit status 1.") /\
  commands (trace (snd r)) = [flatpak_install "org.vkbasalt.vkbasalt"] /\
  provisioned (trace (snd r)) = [].
Proof. repeat split. Qed.

(** The same machine without the switch: the failure of the native
    command is logged and provisioning runs. *)
Example native_failure_reaches_provisioning :
  let os := static_os ["sudo"; "dnf"] [] "x86_64" (Ret ["ID=fedora"])
              (fun _ => Raise (CalledProcessError "Command 'sudo' returned non-zero exit status 1."))
              (fun _ => Raise (FileNotFoundError "[Errno 2] No such file or directory")) in
  let r := main os default_args (initial tt) in
  fst r = Ret tt /\
  provisioned (trace (snd r)) = [SetupConfig; CreateDirectories; PromptDownload].
Proof. repeat split. Qed.

(** The up-to-date check of line 413 on a helper that does not exist: the
    [FileNotFoundError] leaves [main] as well. *)
Example missing_helper_aborts_run :
  let os := static_os ["vkbasalt"] [] "x86_64" (Ret ["ID=arch"]) (fun _ => Ret tt)
              (fun _ => Raise (FileNotFoundError "[Errno 2] No such file or directory")) in
  let r := main os (helper_args "nosuch") (initial tt) in
  fst r = Raise (FileNotFoundError "[Errno 2] No such file or directory") /\
  provisioned (trace (snd r)) = [].
Proof. repeat split. Qed.

(* ================================================================== *)
(** ** More on detection: case, duplicates, range *)
(* ================================================================== *)

Lemma lower_char_space (c : ascii) : Py.is_space (Py.lower_char c) = Py.is_space c.
Proof. destruct c as [[] [] [] [] [] [] [] []]; reflexivity. Qed.

Lemma lower_char_equals (c : ascii) :
  Ascii.eqb (Py.lower_char c) "=" = Ascii.eqb c "=".
Proof. destruct c as [[] [] [] [] [] [] [] []]; reflexivity. Qed.

Lemma lower_char_dquote (c : ascii) :
  Ascii.eqb Py.DQUOTE (Py.lower_char c) = Ascii.eqb Py.DQUOTE c.
Proof. destruct c as [[] [] [] [] [] [] [] []]; reflexivity. Qed.

Lemma lower_char_idem (c : ascii) : Py.lower_char (Py.lower_char c) = Py.lower_char c.
Proof. destruct c as [[] [] [] [] [] [] [] []]; reflexivity. Qed.

Lemma lower_idem (s : string) : Py.lower (Py.lower s) = Py.lower s.
Proof.
  induction s as [|c s IH]; simpl; [reflexivity|].
  rewrite lower_char_idem, IH. reflexivity.
Qed.

Lemma lower_lstrip_by (p : ascii -> bool) (s : string) :
  (forall c, p (Py.lower_char c) = p c) ->
  Py.lstrip_by p (Py.lower s) = Py.lower (Py.lstrip_by p s).
Proof.
  intros Hp. induction s as [|c s IH]; simpl; [reflexivity|].
  rewrite Hp. destruct (p c); [exact IH | reflexivity].
Qed.

Lemma lower_is_empty (s : string) : Py.is_empty (Py.lower s) = Py.is_empty s.
Proof. destruct s; reflexivity. Qed.

Lemma lower_rstrip_by (p : ascii -> bool) (s : string) :
  (forall c, p (Py.lower_char c) = p c) ->
  Py.rstrip_by p (Py.lower s) = Py.lower (Py.rstrip_by p s).
Proof.
  intros Hp. induction s as [|c s IH]; simpl; [reflexivity|].
  rewrite Hp, IH, lower_is_empty.
  destruct (p c && Py.is_empty (Py.rstrip_by p s)); reflexivity.
Qed.

Lemma lower_strip (s : string) : Py.strip (Py.lower s) = Py.lower (Py.strip s).
Proof.
  unfold Py.strip.
  rewrite lower_lstrip_by, lower_rstrip_by by apply lower_char_space. reflexivity.
Qed.

Lemma lower_strip_dquote (s : string) :
  Py.strip_char Py.DQUOTE (Py.lower s) = Py.lower (Py.strip_char Py.DQUOTE s).
Proof.
  unfold Py.strip_char.
  rewrite lower_lstrip_by, lower_rstrip_by by apply lower_char_dquote. reflexivity.
Qed.

Lemma lower_split1_equals (s : string) :
  Py.split1 "=" (Py.lower s)
  = match Py.split1 "=" s with
    | Some (a, b) => Some (Py.lower a, Py.lower b)
    | None => None
    end.
Proof.
  induction s as [|c s IH]; simpl; [reflexivity|].
  rewrite lower_char_equals. destruct (Ascii.eqb c "="); [reflexivity|].
  rewrite IH. destruct (Py.split1 "=" s) as [[a b]|]; reflexivity.
Qed.

Lemma lower_has_equals (s : string) :
  Py.has_char "=" (Py.lower s) = Py.has_char "=" s.
Proof.
  induction s as [|c s IH]; simpl; [reflexivity|].
  rewrite lower_char_equals, IH. reflexivity.
Qed.

(** X2: detection does not depend on the case of the file: lowering every
    line first gives the same mapping (lines 82-83 lower the key and the
    value, and lowering touches neither the equals sign, nor the quotes,
    nor whitespace). *)
Theorem parse_os_release_case_insensitive (lines : list string) (info : Py.dict string) :
  parse_os_release (map Py.lower lines) info = parse_os_release lines info.
Proof.
  revert info. induction lines as [|line rest IH]; intros info; simpl; [reflexivity|].
  rewrite !contains_char_has_char, lower_has_equals.
  destruct (Py.has_char "=" line); [|apply IH].
  rewrite lower_strip, lower_split1_equals.
  destruct (Py.split1 "=" (Py.strip line)) as [[key value]|]; [|reflexivity].
  rewrite lower_idem, lower_strip_dquote, lower_idem. apply IH.
Qed.

Example detection_ignores_case :
  parse_os_release ["ID=Ubuntu"; "ID_LIKE=Debian"] []
  = parse_os_release ["id=ubuntu"; "id_like=debian"] [].
Proof. reflexivity. Qed.

(** The dictionary laws the parse relies on. *)
Lemma get_set_same {V} (d : Py.dict V) (k : string) (v : V) :
  Py.get (Py.set d k v) k = Some v.
Proof.
  induction d as [|[k' v'] d IH]; simpl.
  - rewrite String.eqb_refl. reflexivity.
  - destruct (String.eqb k' k) eqn:E; simpl; rewrite E; [reflexivity | exact IH].
Qed.

Lemma get_set_other {V} (d : Py.dict V) (k k' : string) (v : V) :
  k' <> k -> Py.get (Py.set d k v) k' = Py.get d k'.
Proof.
  intros NE. induction d as [|[k0 v0] d IH]; simpl.
  - destruct (String.eqb_spec k k'); [congruence | reflexivity].
  - destruct (String.eqb_spec k0 k) as [->|N0]; simpl.
    + destruct (String.eqb_spec k k'); [congruence | reflexivity].
    + destruct (String.eqb k0 k'); [reflexivity | exact IH].
Qed.

Lemma parse_os_release_app (l1 l2 : list string) (info : Py.dict string) :
  parse_os_release (l1 ++ l2) info
  = match parse_os_release l1 info with
    | Ret info1 => parse_os_release l2 info1
    | Raise e => Raise e
    end.
Proof.
  revert info. induction l1 as [|line rest IH]; intros info; simpl; [reflexivity|].
  destruct (Py.contains "=" line); [|apply IH].
  destruct (Py.split1 "=" (Py.strip line)) as [[key value]|]; [apply IH | reflexivity].
Qed.

(** X3: a key given on several lines: the last line that gives it counts, and
    the other keys keep what they had. *)
Theorem parse_os_release_last_wins (lines : list string) (line key value : string) :
  Py.contains "=" line = true ->
  Py.split1 "=" (Py.strip line) = Some (key, value) ->
  exists info info',
    parse_os_release lines [] = Ret info /\
    parse_os_release (lines ++ [line]) [] = Ret info' /\
    Py.get info' (Py.lower key) = Some (Py.lower (Py.strip_char Py.DQUOTE value)) /\
    (forall k, k <> Py.lower key -> Py.get info' k = Py.get info k).
Proof.
  intros Hhas Hsplit.
  destruct (parse_os_release_total lines []) as (info & E).
  exists info. eexists. split; [exact E|].
  rewrite parse_os_release_app, E. simpl. rewrite Hhas, Hsplit.
  split; [reflexivity|]. split.
  - apply get_set_same.
  - intros k NE. apply get_set_other. exact NE.
Qed.

Lemma parse_os_release_last_wins_witness :
  exists info info',
    parse_os_release ["ID=debian"; "NAME=x"] [] = Ret info /\
    parse_os_release (["ID=debian"; "NAME=x"] ++ ["ID=arch"]) [] = Ret info' /\
    Py.get info' (Py.lower "ID") = Some (Py.lower (Py.strip_char Py.DQUOTE "arch")) /\
    (forall k, k <> Py.lower "ID" -> Py.get info' k = Py.get info k).
Proof.
  apply (parse_os_release_last_wins ["ID=debian"; "NAME=x"] "ID=arch" "ID" "arch");
    reflexivity.
Defined.

(** The classification only ever gives one of six values. *)
Lemma classify_range (info : Py.dict string) :
  In (classify info) ("unknown" :: families).
Proof.
  unfold classify, classify_id_like, classify_id, families.
  destruct (Py.get info "id_like") as [id_like|];
    repeat match goal with
           | |- context [if ?b then _ else _] => destruct b
           | |- context [match Py.get info "id" with _ => _ end] =>
               destruct (Py.get info "id")
           end; simpl; auto 10.
Qed.

Section DetectionFacts.

Context {W : Type} (os : OS W).

(** X4: [detect_distro] always returns, with one of the six values, having
    only talked: no command is run, the world and the globals are as
    before. *)
Theorem detect_distro_returns_family (s : state W) :
  exists distro s',
    detect_distro os s = (Ret distro, s') /\
    In distro ("unknown" :: families) /\
    world s' = world s /\ commands (trace s') = commands (trace s) /\
    provisioned (trace s') = provisioned (trace s).
Proof.
  destruct (detect_distro_value os s) as (s' & E & Htalk).
  exists (detected_distro os (world s)), s'. split; [exact E|]. split.
  - unfold detected_distro. destruct (os_release os (world s)) as [lines|e].
    + destruct (parse_os_release lines []) as [info|e];
        [apply classify_range | left; reflexivity].
    + left; reflexivity.
  - split; [apply Htalk|]. split.
    + apply after_talk_commands; exact Htalk.
    + apply after_talk_provisioned; exact Htalk.
Qed.

(** X1: when the file can be read, the handler of line 108 is never entered:
    every line parses (line 82 always unpacks two values), the mapping is
    logged and its classification is returned. *)
Theorem detect_distro_readable (s : state W) (lines : list string) :
  os_release os (world s) = Ret lines ->
  exists info,
    parse_os_release lines [] = Ret info /\
    fst (detect_distro os s) = Ret (classify info) /\
    printed (trace (snd (detect_distro os s)))
    = printed (trace s)
      ++ ["Detecting Linux distribution by reading /etc/os-release...";
          "Parsed /etc/os-release: " ^^ Py.str_dict info;
          "Determined distribution: " ^^ classify info].
Proof.
  intros Hrel. destruct (parse_os_release_total lines []) as (info & Eparse).
  exists info. split; [exact Eparse|]. unfold detect_distro.
  cbv beta iota zeta delta
    [try_except bind lift ret readlines_os_release except_Exception].
  rewrite slow_log_eq. simpl. rewrite Hrel. simpl. rewrite Eparse. simpl.
  rewrite slow_log_eq. simpl. rewrite slow_log_eq. simpl.
  split; [reflexivity | tidy_trace; reflexivity].
Qed.

(** X5: when the file cannot be read, the error is logged with its text and
    the distribution is unknown. *)
Theorem detect_distro_unreadable (s : state W) (e : exn) :
  os_release os (world s) = Raise e ->
  fst (detect_distro os s) = Ret "unknown" /\
  printed (trace (snd (detect_distro os s)))
  = printed (trace s)
    ++ ["Detecting Linux distribution by reading /etc/os-release...";
        "Error reading /etc/os-release: " ^^ str_exn e;
        "Determined distribution: unknown"].
Proof.
  intros Hrel. unfold detect_distro.
  cbv beta iota zeta delta
    [try_except bind lift ret readlines_os_release except_Exception].
  rewrite slow_log_eq. simpl. rewrite Hrel. simpl.
  rewrite slow_log_eq. simpl. rewrite slow_log_eq. simpl.
  split; [reflexivity | tidy_trace; reflexivity].
Qed.

End DetectionFacts.

Lemma detect_distro_readable_witness :
  exists info,
    parse_os_release ["NAME=Manjaro Linux"; "ID=manjaro"; "ID_LIKE=arch"] [] = Ret info /\
    fst (detect_distro
           (static_os [] [] "x86_64" (Ret ["NAME=Manjaro Linux"; "ID=manjaro"; "ID_LIKE=arch"])
              (fun _ => Ret tt) (fun _ => Ret EmptyString))
           (initial tt)) = Ret (classify info).
Proof.
  destruct (detect_distro_readable
              (static_os [] [] "x86_64"
                 (Ret ["NAME=Manjaro Linux"; "ID=manjaro"; "ID_LIKE=arch"])
                 (fun _ => Ret tt) (fun _ => Ret EmptyString))
              (initial tt) ["NAME=Manjaro Linux"; "ID=manjaro"; "ID_LIKE=arch"] eq_refl)
    as (info & Eparse & Eres & _).
  exists info. split; assumption.
Defined.

Lemma detect_distro_unreadable_witness :
  fst (detect_distro
         (static_os [] [] "x86_64"
            (Raise (FileNotFoundError "[Errno 2] No such file or directory: '/etc/os-release'"))
            (fun _ => Ret tt) (fun _ => Ret EmptyString))
         (initial tt)) = Ret "unknown".
Proof.
  apply (detect_distro_unreadable
           (static_os [] [] "x86_64"
              (Raise (FileNotFoundError "[Errno 2] No such file or directory: '/etc/os-release'"))
              (fun _ => Ret tt) (fun _ => Ret EmptyString))
           (initial tt)
           (FileNotFoundError "[Errno 2] No such file or directory: '/etc/os-release'")).
  reflexivity.
Defined.

(* ================================================================== *)
(** ** The presence check *)
(* ================================================================== *)

(** The paths [is_vkbasalt_installed] tests once the binaries were not
    found: the three known ones, and the custom one when it is set. *)
Definition tested_locations (custom : option string) : Py.dict string :=
  match custom with
  | Some p => if truthy p
              then Py.set known_locations p "Custom provided path"
              else known_locations
  | None => known_locations
  end.
Arguments tested_locations : simpl never.

(** Presence in world [w]: one of the two binary names on PATH, or one of
    the three known files there, or the custom path there. *)
Definition present {W} (os : OS W) (w : W) (custom : option string) : bool :=
  os_which os w "vkbasalt" || os_which os w "vkBasalt" ||
  os_path_exists os w "/usr/lib/libvkbasalt.so" ||
  os_path_exists os w "/usr/share/vulkan/implicit_layer.d/vkBasalt.json" ||
  os_path_exists os w "/usr/share/vkbasalt/vkBasalt.conf.example" ||
  match custom with
  | Some p => truthy p && os_path_exists os w p
  | None => false
  end.

Lemma existsb_keys_set {V} (f : string -> bool) (d : Py.dict V) (k : string) (v : V) :
  existsb (fun kv => f (fst kv)) (Py.set d k v)
  = existsb (fun kv => f (fst kv)) d || f k.
Proof.
  induction d as [|[k' v'] d IH]; simpl.
  - apply orb_false_r.
  - destruct (String.eqb_spec k' k) as [->|NE]; simpl.
    + destruct (f k); simpl; [reflexivity | rewrite orb_false_r; reflexivity].
    + rewrite IH. apply orb_assoc.
Qed.

Section Presence.

Context {W : Type} (os : OS W).

Lemma find_binary_value names s :
  exists s',
    find_binary os names s = (Ret (existsb (os_which os (world s)) names), s') /\
    after_talk s s'.
Proof.
  induction names as [|b rest IH]; simpl.
  - exists s. split; [reflexivity|]. repeat split. apply grows_refl.
  - cbv beta iota zeta delta [bind which ret].
    destruct (os_which os (world s) b); simpl.
    + rewrite slow_log_eq. eexists. split; [reflexivity | solve_after_talk].
    + exact IH.
Qed.

Lemma scan_known_locations_value items found s :
  exists s',
    scan_known_locations os items found s
    = (Ret (found || existsb (fun kv => os_path_exists os (world s) (fst kv)) items), s') /\
    after_talk s s'.
Proof.
  revert found s. induction items as [|[path desc] rest IH]; intros found s; simpl.
  - exists s. rewrite orb_false_r. split; [reflexivity|]. repeat split. apply grows_refl.
  - cbv beta iota zeta delta [bind path_exists ret].
    destruct (os_path_exists os (world s) path); simpl.
    + rewrite slow_log_eq.
      match goal with
      | |- context [scan_known_locations os rest true ?S] =>
          destruct (IH true S) as (s' & E & Hw & Hs & Hc & d & Ed & Fd)
      end.
      rewrite E. simpl in *. rewrite orb_true_r. exists s'.
      split; [reflexivity|]. repeat split; try assumption.
      eexists. split; [rewrite Ed, <- app_assoc; reflexivity|].
      apply Forall_app; split; [apply talk_logged | exact Fd].
    + apply IH.
Qed.

Lemma presence_answer (s : state W) :
  exists s',
    is_vkbasalt_installed os s = (Ret (present os (world s) (CUSTOM_PATH s)), s') /\
    after_talk s s'.
Proof.
  { assert (Hdef : is_vkbasalt_installed os
                   = bind (slow_log "Checking if vkbasalt is installed (searching in PATH)...")
                       (fun _ =>
                        bind (find_binary os ["vkbasalt"; "vkBasalt"])
                          (fun hit =>
                           if hit then ret true
                           else
                             bind (slow_log "Not found in PATH; checking known locations...")
                               (fun _ =>
                                bind get_CUSTOM_PATH
                                  (fun custom =>
                                   bind (scan_known_locations os (tested_locations custom) false)
                                     (fun found =>
                                      bind (if found
                                            then slow_log "vkBasalt detected (Vulkan layer installed)."
                                            else slow_log "vkbasalt not found in expected locations.")
                                        (fun _ => ret found)))))))
      by reflexivity.
    rewrite Hdef. clear Hdef.
    cbv beta iota zeta delta [bind ret get_CUSTOM_PATH].
    rewrite slow_log_eq.
    match goal with
    | |- context [find_binary os ?l ?S] =>
        destruct (find_binary_value l S) as (s1 & E1 & Hw1 & Hs1 & Hc1 & d1 & Ed1 & Fd1)
    end.
    rewrite E1. simpl in Hw1, Hs1, Hc1, Ed1. unfold present.
    cbn [world existsb].
    destruct (os_which os (world s) "vkbasalt"); cbn [orb].
    { exists s1. split; [reflexivity|]. repeat split; try assumption.
      eexists. split; [rewrite Ed1, <- app_assoc; reflexivity|].
      apply Forall_app; split; [apply talk_logged | exact Fd1]. }
    destruct (os_which os (world s) "vkBasalt"); cbn [orb].
    { exists s1. split; [reflexivity|]. repeat split; try assumption.
      eexists. split; [rewrite Ed1, <- app_assoc; reflexivity|].
      apply Forall_app; split; [apply talk_logged | exact Fd1]. }
    rewrite slow_log_eq. cbn [world trace SLOW_MODE CUSTOM_PATH].
    match goal with
    | |- context [scan_known_locations os ?l false ?S] =>
        destruct (scan_known_locations_value l false S)
          as (s2 & E2 & Hw2 & Hs2 & Hc2 & d2 & Ed2 & Fd2)
    end.
    rewrite E2. cbn [world trace SLOW_MODE CUSTOM_PATH orb] in *. rewrite Hc1, Hw1.
    assert (Hval : existsb (fun kv => os_path_exists os (world s) (fst kv))
                     (tested_locations (CUSTOM_PATH s))
                   = os_path_exists os (world s) "/usr/lib/libvkbasalt.so" ||
                     os_path_exists os (world s)
                       "/usr/share/vulkan/implicit_layer.d/vkBasalt.json" ||
                     os_path_exists os (world s)
                       "/usr/share/vkbasalt/vkBasalt.conf.example" ||
                     match CUSTOM_PATH s with
                     | Some p => truthy p && os_path_exists os (world s) p
                     | None => false
                     end).
    { unfold tested_locations. destruct (CUSTOM_PATH s) as [p|].
      - destruct (truthy p); [rewrite existsb_keys_set|]; simpl;
          rewrite ?orb_false_r, ?orb_assoc; reflexivity.
      - simpl. rewrite ?orb_false_r, ?orb_assoc. reflexivity. }
    rewrite Hval.
    match goal with
    | |- context [if ?b then _ else _] => destruct b
    end; rewrite slow_log_eq; cbn [world trace SLOW_MODE CUSTOM_PATH];
      (eexists; split; [reflexivity|]);
      (repeat split; cbn [world trace SLOW_MODE CUSTOM_PATH]; try congruence);
      (eexists; split;
       [rewrite Ed2; cbn [trace]; rewrite Ed1; rewrite <- ?app_assoc; reflexivity|]);
      repeat first [apply talk_logged | assumption | apply Forall_app; split]. }
Qed.

(** X6: the presence check answers [True] exactly when one of the names or
    paths is there; it always returns and only talks. *)
Theorem is_vkbasalt_installed_value (s : state W) :
  exists s',
    is_vkbasalt_installed os s = (Ret (present os (world s) (CUSTOM_PATH s)), s') /\
    world s' = world s /\ commands (trace s') = commands (trace s) /\
    provisioned (trace s') = provisioned (trace s).
Proof.
  destruct (presence_answer s) as (s' & E & Htalk). exists s'. split; [exact E|].
  split; [apply Htalk|]. split.
  - apply after_talk_commands; exact Htalk.
  - apply after_talk_provisioned; exact Htalk.
Qed.

End Presence.

(* ================================================================== *)
(** ** More on the up-to-date check *)
(* ================================================================== *)

Lemma split_ws_cons (c : ascii) (r : string) :
  Py.split_ws (String c r)
  = if Py.is_space c then Py.split_ws r
    else match r with
         | EmptyString => [String c EmptyString]
         | String c' _ =>
             if Py.is_space c' then String c EmptyString :: Py.split_ws r
             else match Py.split_ws r with
                  | t :: ts => String c t :: ts
                  | [] => [String c EmptyString]
                  end
         end.
Proof. reflexivity. Qed.

Lemma split_ws_lstrip (s : string) :
  Py.split_ws (Py.lstrip_by Py.is_space s) = Py.split_ws s.
Proof.
  induction s as [|c s IH]; [reflexivity|].
  cbn [Py.lstrip_by]. destruct (Py.is_space c) eqn:E; [|reflexivity].
  rewrite IH, (split_ws_cons c s), E. reflexivity.
Qed.

Lemma split_ws_rstrip (s : string) :
  Py.split_ws (Py.rstrip_by Py.is_space s) = Py.split_ws s.
Proof.
  induction s as [|c s IH]; [reflexivity|].
  cbn [Py.rstrip_by]. rewrite (split_ws_cons c s).
  destruct (Py.is_space c) eqn:E; cbn [andb].
  - destruct (Py.rstrip_by Py.is_space s) as [|d t] eqn:R; cbn [Py.is_empty].
    + rewrite <- IH. reflexivity.
    + rewrite (split_ws_cons c (String d t)), E. exact IH.
  - rewrite (split_ws_cons c (Py.rstrip_by Py.is_space s)), E.
    destruct s as [|c' s']; [reflexivity|].
    rewrite IH.
    destruct (Py.is_space c') eqn:E'.
    + destruct (Py.rstrip_by Py.is_space (String c' s')) as [|d t] eqn:R.
      * rewrite <- IH. reflexivity.
      * assert (Hd : d = c').
        { cbn [Py.rstrip_by] in R.
          destruct (Py.is_space c' && Py.is_empty (Py.rstrip_by Py.is_space s'));
            [discriminate | congruence]. }
        subst d. rewrite E'. reflexivity.
    + cbn [Py.rstrip_by]. rewrite E'. cbn [andb]. rewrite E'. reflexivity.
Qed.

Lemma split_ws_strip (s : string) : Py.split_ws (Py.strip s) = Py.split_ws s.
Proof. unfold Py.strip. rewrite split_ws_rstrip. apply split_ws_lstrip. Qed.

(** X7: the installed version is the second token of the raw output: the
    whitespace around the output (the newline the helper ends it with)
    changes nothing. *)
Theorem installed_version_second_token (output : string) :
  installed_version output
  = match Py.split_ws output with
    | _ :: v :: _ => Ret v
    | _ => Raise IndexError
    end.
Proof. unfold installed_version. rewrite split_ws_strip. reflexivity. Qed.

(** The check run from a fresh state in world [w]: its answer and the
    world it leaves. *)
Definition up_to_date_in {W} (os : OS W) (w : W) (helper : string) : result bool * W :=
  let r := is_vkbasalt_up_to_date_with_aur os helper (initial w) in
  (fst r, world (snd r)).
Arguments up_to_date_in : simpl never.

Section CheckFacts.

Context {W : Type} (os : OS W).

Ltac check_cases s helper :=
  run_check;
  destruct (os_check_output os (world s) [helper; "-Q"; "vkbasalt"]) as [[out1|[]] w1];
  simpl;
  [destruct (installed_version out1) as [v|[]]; simpl;
   [destruct (os_check_output os w1 [helper; "-Si"; "vkbasalt"]) as [[out2|[]] w2];
    simpl;
    [destruct (latest_version (Py.splitlines out2)) as [[latest|]|[]]; simpl;
     [destruct (String.eqb v latest); rewrite ?slow_log_eq; simpl|..]|..]|..]|..].

(** The answer of the check and the world it leaves depend on the world
    it starts in, not on the trace so far nor on the globals; the globals
    are left alone. *)
Lemma up_to_date_frame helper s :
  fst (is_vkbasalt_up_to_date_with_aur os helper s)
  = fst (up_to_date_in os (world s) helper) /\
  world (snd (is_vkbasalt_up_to_date_with_aur os helper s))
  = snd (up_to_date_in os (world s) helper) /\
  SLOW_MODE (snd (is_vkbasalt_up_to_date_with_aur os helper s)) = SLOW_MODE s /\
  CUSTOM_PATH (snd (is_vkbasalt_up_to_date_with_aur os helper s)) = CUSTOM_PATH s.
Proof.
  unfold up_to_date_in, initial. check_cases s helper; repeat split.
Qed.

Lemma up_to_date_queries helper s :
  let r := is_vkbasalt_up_to_date_with_aur os helper s in
  (commands (trace (snd r)) = commands (trace s) ++ [query_installed helper] \/
   commands (trace (snd r))
   = commands (trace s) ++ [query_installed helper; query_available helper]) /\
  (fst r = Ret true ->
   commands (trace (snd r))
   = commands (trace s) ++ [query_installed helper; query_available helper]).
Proof.
  cbv zeta. unfold query_installed, query_available.
  check_cases s helper; tidy_trace; rewrite ?app_nil_r;
    (split; [first [left; reflexivity | right; reflexivity]|]);
    intros H; first [reflexivity | discriminate H].
Qed.

(** X8: the check only ever runs its own two queries: the query-installed
    command, then at most the query-available command; it calls no
    provisioning function and when it answers [True] both were run. *)
Theorem up_to_date_only_queries helper s :
  let r := is_vkbasalt_up_to_date_with_aur os helper s in
  (commands (trace (snd r)) = commands (trace s) ++ [query_installed helper] \/
   commands (trace (snd r))
   = commands (trace s) ++ [query_installed helper; query_available helper]) /\
  provisioned (trace (snd r)) = provisioned (trace s) /\
  (fst r = Ret true ->
   commands (trace (snd r))
   = commands (trace s) ++ [query_installed helper; query_available helper]).
Proof.
  cbv zeta. unfold query_installed, query_available.
  check_cases s helper; tidy_trace; rewrite ?app_nil_r;
    (split; [first [left; reflexivity | right; reflexivity]|]);
    (split; [reflexivity|]); intros H; first [reflexivity | discriminate H].
Qed.

(** X9: a non-zero exit of either query is answered by [False]. *)
Theorem up_to_date_nonzero_exit helper s :
  (forall msg w1,
     os_check_output os (world s) (query_installed helper)
       = (Raise (CalledProcessError msg), w1) ->
     fst (is_vkbasalt_up_to_date_with_aur os helper s) = Ret false) /\
  (forall out1 w1 name v rest msg w2,
     os_check_output os (world s) (query_installed helper) = (Ret out1, w1) ->
     Py.split_ws out1 = name :: v :: rest ->
     os_check_output os w1 (query_available helper)
       = (Raise (CalledProcessError msg), w2) ->
     fst (is_vkbasalt_up_to_date_with_aur os helper s) = Ret false).
Proof.
  split.
  - intros msg w1 H. exact (up_to_date_first_query_fails os helper s msg w1 H).
  - intros out1 w1 name v rest msg w2 H1 Htok H2.
    apply (up_to_date_second_query_fails os helper s out1 w1 v msg w2 H1); [|exact H2].
    unfold installed_version. rewrite split_ws_strip, Htok. reflexivity.
Qed.

(** X10: a query-installed output with fewer than two tokens (an empty output,
    a bare package name): the check raises [IndexError] and the second
    query is never run. *)
Theorem up_to_date_too_few_tokens helper s out1 w1 :
  os_check_output os (world s) (query_installed helper) = (Ret out1, w1) ->
  length (Py.split_ws out1) < 2 ->
  let r := is_vkbasalt_up_to_date_with_aur os helper s in
  fst r = Raise IndexError /\
  commands (trace (snd r)) = commands (trace s) ++ [query_installed helper] /\
  world (snd r) = w1.
Proof.
  intros H1 Hlen. cbv zeta.
  assert (Hv : installed_version out1 = Raise IndexError).
  { unfold installed_version. rewrite split_ws_strip.
    destruct (Py.split_ws out1) as [|a [|b l]]; simpl in Hlen; [reflexivity..|lia]. }
  run_check. rewrite H1; simpl. rewrite Hv; simpl.
  repeat split. tidy_trace. reflexivity.
Qed.

End CheckFacts.

Lemma up_to_date_nonzero_exit_witness :
  fst (is_vkbasalt_up_to_date_with_aur arch_os "paru" (initial tt)) = Ret false.
Proof.
  destruct (up_to_date_nonzero_exit arch_os "paru" (initial tt)) as [Hfirst _].
  apply (Hfirst "Command 'paru' returned non-zero exit status 1." tt). reflexivity.
Defined.

Lemma up_to_date_too_few_tokens_witness :
  fst (is_vkbasalt_up_to_date_with_aur (yay_os EmptyString ["Version : 1.2.3"])
         "yay" (initial tt)) = Raise IndexError.
Proof.
  apply (up_to_date_too_few_tokens (yay_os EmptyString ["Version : 1.2.3"]) "yay"
           (initial tt) (lines_text [EmptyString]) tt); [reflexivity | simpl; lia].
Defined.

(* ================================================================== *)
(** ** More on install and uninstall *)
(* ================================================================== *)

(** The install commands of the four families with a single package
    manager (lines 184-190 and 211-217), in the order they are run. *)
Definition native_install (distro : string) : option (list (list string)) :=
  if String.eqb distro "debian" then
    Some [["sudo"; "apt-get"; "update"]; ["sudo"; "apt-get"; "install"; "-y"; "vkbasalt"]]
  else if String.eqb distro "fedora" then
    Some [["sudo"; "dnf"; "install"; "-y"; "vkbasalt"]]
  else if String.eqb distro "arch" then None
  else if String.eqb distro "void" then
    Some [["sudo"; "xbps-install"; "-S"; "vkbasalt"]]
  else if String.eqb distro "solus" then
    Some [["sudo"; "eopkg"; "update"]; ["sudo"; "eopkg"; "install"; "vkbasalt"]]
  else None.

Definition flatpak_uninstall (pkg : string) : list string :=
  ["flatpak"; "uninstall"; "--user"; "-y"; pkg].

Section InstallFacts.

Context {W : Type} (os : OS W).

Lemma try_except_contains {A} (m : M W A) (k : string -> M W A) :
  (forall msg s, exists a s', k msg s = (Ret a, s')) ->
  forall s msg,
    fst (try_except m (except_CalledProcessError k) s) <> Raise (CalledProcessError msg).
Proof.
  intros Hk s msg. unfold try_except.
  destruct (m s) as [[a|e] s1]; simpl; [discriminate|].
  destruct e; simpl; try discriminate.
  destruct (Hk msg0 s1) as (a & s' & E). rewrite E. discriminate.
Qed.

(** The first command of a list that does not return, run one after the
    other from world [w], with the world it leaves. *)
Fixpoint first_failure (w : W) (cmds : list (list string)) : option (exn * W) :=
  match cmds with
  | [] => None
  | argv :: rest =>
      match os_run os w argv with
      | (Ret _, w') => first_failure w' rest
      | (Raise e, w') => Some (e, w')
      end
  end.

Lemma printed_ends tr message b :
  exists before, printed (tr ++ logged message b) = before ++ [message].
Proof. exists (printed tr). apply printed_logged. Qed.

Ltac destruct_run_eq :=
  match goal with
  | |- context [os_run os ?w ?a] =>
      let E := fresh "Erun" in destruct (os_run os w a) as [[[]|?] ?] eqn:E
  end.

(** X11: without Flatpak, neither install nor uninstall ever lets a non-zero
    exit out: whatever the distribution and whatever the commands do, the
    result is not a [CalledProcessError].  For a family with a single
    package manager the non-zero exit is logged: when a command of the
    family exits non-zero, the function returns normally in the world that
    command left, and the last message printed is the error message made
    of that exit's text. *)
Theorem native_paths_contain_nonzero_exit distro pkg aur s msg :
  fst (install_vkbasalt os distro false pkg aur s) <> Raise (CalledProcessError msg) /\
  fst (uninstall_vkbasalt os distro false pkg aur s) <> Raise (CalledProcessError msg) /\
  (forall cmds w1,
     os_machine os (world s) = "x86_64" ->
     native_install distro = Some cmds ->
     first_failure (world s) cmds = Some (CalledProcessError msg, w1) ->
     let r := install_vkbasalt os distro false pkg aur s in
     fst r = Ret tt /\ world (snd r) = w1 /\
     exists before,
       printed (trace (snd r))
       = before ++ ["An error occurred during installation: " ^^ msg]) /\
  (forall argv w1,
     String.eqb distro "arch" = false ->
     native_remove distro = Some argv ->
     os_run os (world s) argv = (Raise (CalledProcessError msg), w1) ->
     let r := uninstall_vkbasalt os distro false pkg aur s in
     fst r = Ret tt /\ world (snd r) = w1 /\
     exists before,
       printed (trace (snd r))
       = before ++ ["An error occurred during uninstallation: " ^^ msg]).
Proof.
  split; [|split; [|split]].
  - unfold install_vkbasalt. unfold bind at 1 2. unfold machine. simpl.
    rewrite slow_log_eq. simpl.
    destruct (negb (String.eqb (os_machine os (world s)) "x86_64")).
    + rewrite slow_log_eq. discriminate.
    + apply try_except_contains. intros m s0. rewrite slow_log_eq.
      eexists; eexists; reflexivity.
  - unfold uninstall_vkbasalt.
    apply try_except_contains. intros m s0. rewrite slow_log_eq.
    eexists; eexists; reflexivity.
  - intros cmds w1 Hm. unfold native_install. cbv zeta. run_script. rewrite Hm. simpl.
    rewrite slow_log_eq. simpl.
    destruct (String.eqb distro "debian");
      [|destruct (String.eqb distro "fedora");
        [|destruct (String.eqb distro "arch"); [discriminate|];
          destruct (String.eqb distro "void");
          [|destruct (String.eqb distro "solus"); [|discriminate]]]];
      intros [= <-]; rewrite slow_log_eq; simpl.
    all: destruct_run_eq; simpl; try destruct_run_eq; simpl;
      intros Hfail; try discriminate Hfail;
      injection Hfail as -> ->; simpl; rewrite slow_log_eq; simpl;
      (split; [reflexivity|]); (split; [reflexivity|]); apply printed_ends.
  - intros argv w1 Harch. unfold native_remove. cbv zeta. run_script. rewrite Harch.
    destruct (String.eqb distro "debian");
      [|destruct (String.eqb distro "fedora");
        [|destruct (String.eqb distro "void");
          [|destruct (String.eqb distro "solus"); [|discriminate]]]];
      intros [= <-] Hrun; rewrite slow_log_eq; simpl; rewrite Hrun; simpl;
      rewrite slow_log_eq; simpl;
      (split; [reflexivity|]); (split; [reflexivity|]); apply printed_ends.
Qed.

Ltac destruct_run' :=
  match goal with
  | |- context [os_run os ?w ?a] =>
      let E := fresh "Erun" in destruct (os_run os w a) as [[[]|[]] ?] eqn:E
  end.

(** X12: on x86_64 and without Flatpak, a family with a single package manager
    runs its commands in order and stops at the first one that does not
    return: what is run is a non-empty prefix of the family's list, all of
    it when every command succeeds, and only the first command when that
    one fails. *)
Theorem native_install_sequence distro pkg aur s cmds :
  os_machine os (world s) = "x86_64" ->
  native_install distro = Some cmds ->
  let r := install_vkbasalt os distro false pkg aur s in
  (exists k, 0 < k /\
     commands (trace (snd r)) = commands (trace s) ++ firstn k cmds) /\
  ((forall w argv, fst (os_run os w argv) = Ret tt) ->
   fst r = Ret tt /\ commands (trace (snd r)) = commands (trace s) ++ cmds) /\
  (forall e w1,
     os_run os (world s) (hd [] cmds) = (Raise e, w1) ->
     commands (trace (snd r)) = commands (trace s) ++ firstn 1 cmds).
Proof.
  intros Hm. unfold native_install. cbv zeta. run_script. rewrite Hm. simpl.
  rewrite slow_log_eq. simpl.
  destruct (String.eqb distro "debian");
    [|destruct (String.eqb distro "fedora");
      [|destruct (String.eqb distro "arch"); [discriminate|];
        destruct (String.eqb distro "void");
        [|destruct (String.eqb distro "solus"); [|discriminate]]]];
    intros [= <-]; rewrite slow_log_eq; simpl.
  all: destruct_run'; simpl; try destruct_run'; simpl; rewrite ?slow_log_eq.
  all: split;
    [first [exists 2; split; [lia|]; tidy_trace; reflexivity
           |exists 1; split; [lia|]; tidy_trace; reflexivity]|].
  all: split;
    [intros Hall;
     first [match goal with
            | H : os_run os ?w ?a = (Raise _, _) |- _ =>
                specialize (Hall w a); rewrite H in Hall; discriminate Hall
            end
           |split; [reflexivity | tidy_trace; reflexivity]]
    |intros e w1 He; simpl in He;
     first [congruence | tidy_trace; reflexivity]].
Qed.

(** X13: with the Flatpak switch and no [flatpak] on PATH, install and
    uninstall return without running anything; with [flatpak] on PATH they
    run exactly the one flatpak command and pass on what it does.  The
    distribution and the AUR helper play no part. *)
Theorem flatpak_path distro pkg aur s :
  (os_which os (world s) "flatpak" = false ->
   (let r := install_vkbasalt os distro true pkg aur s in
    fst r = Ret tt /\ world (snd r) = world s /\
    commands (trace (snd r)) = commands (trace s)) /\
   (let r := uninstall_vkbasalt os distro true pkg aur s in
    fst r = Ret tt /\ world (snd r) = world s /\
    commands (trace (snd r)) = commands (trace s))) /\
  (os_which os (world s) "flatpak" = true ->
   (let r := install_vkbasalt os distro true pkg aur s in
    fst r = fst (os_run os (world s) (flatpak_install pkg)) /\
    world (snd r) = snd (os_run os (world s) (flatpak_install pkg)) /\
    commands (trace (snd r)) = commands (trace s) ++ [flatpak_install pkg]) /\
   (let r := uninstall_vkbasalt os distro true pkg aur s in
    fst r = fst (os_run os (world s) (flatpak_uninstall pkg)) /\
    world (snd r) = snd (os_run os (world s) (flatpak_uninstall pkg)) /\
    commands (trace (snd r)) = commands (trace s) ++ [flatpak_uninstall pkg])) /\
  (forall distro' aur',
     install_vkbasalt os distro' true pkg aur' s = install_vkbasalt os distro true pkg aur s /\
     uninstall_vkbasalt os distro' true pkg aur' s
     = uninstall_vkbasalt os distro true pkg aur s).
Proof.
  split; [|split].
  - intros Hno. split; cbv zeta; run_script; rewrite Hno; simpl;
      rewrite slow_log_eq; simpl; repeat split; tidy_trace; reflexivity.
  - intros Hyes. unfold flatpak_install, flatpak_uninstall.
    split; cbv zeta; run_script; rewrite Hyes; simpl; rewrite slow_log_eq; simpl;
      match goal with
      | |- context [os_run os ?w ?a] => destruct (os_run os w a) as [r w1]
      end; simpl; repeat split; tidy_trace; reflexivity.
  - intros distro' aur'. split; reflexivity.
Qed.

(** X14: the second tier on Arch, once pacman has exited non-zero and a helper
    was resolved.  If the helper reports the installed version as the
    latest, nothing is installed: the run is the pacman attempt and the two
    queries.  If it reports another version, the helper's install command
    is run last, and a non-zero exit of it is logged, not raised: the
    function returns normally and the last message printed is the error
    message made of that exit's text. *)
Theorem install_arch_second_tier pkg aur s msg w1 helper :
  os_machine os (world s) = "x86_64" ->
  os_run os (world s) pacman_install = (Raise (CalledProcessError msg), w1) ->
  fallback_helper os w1 aur = Some helper ->
  let r := install_vkbasalt os "arch" false pkg aur s in
  (fst (up_to_date_in os w1 helper) = Ret true ->
   fst r = Ret tt /\
   world (snd r) = snd (up_to_date_in os w1 helper) /\
   commands (trace (snd r))
   = commands (trace s)
     ++ [pacman_install; query_installed helper; query_available helper]) /\
  (fst (up_to_date_in os w1 helper) = Ret false ->
   (exists queries,
      commands (trace (snd r))
      = commands (trace s) ++ pacman_install :: queries ++ [helper_install helper]) /\
   forall msg',
     fst (os_run os (snd (up_to_date_in os w1 helper)) (helper_install helper))
       = Raise (CalledProcessError msg') ->
     fst r = Ret tt /\
     exists before,
       printed (trace (snd r))
       = before ++ ["An error occurred during installation: " ^^ msg']).
Proof.
  intros Hm Hrun Hhelper. cbv zeta.
  remember (up_to_date_in os w1 helper) as answer eqn:Eanswer.
  run_script. rewrite Hm. simpl.
  rewrite !slow_log_eq. simpl. fold pacman_install. rewrite Hrun. simpl.
  rewrite slow_log_eq, resolve_aur_helper_eq. simpl. rewrite Hhelper.
  match goal with
  | |- context [is_vkbasalt_up_to_date_with_aur os helper ?S] =>
      destruct (up_to_date_frame os helper S) as (Hans & Hworld & _);
      cbn [world] in Hans, Hworld; rewrite <- Eanswer in Hans, Hworld;
      destruct (up_to_date_queries os helper S) as (Hq & Hboth);
      destruct (is_vkbasalt_up_to_date_with_aur os helper S) as [[fresh|e] s3]
  end; simpl in Hans, Hworld, Hq, Hboth; revert Hq Hboth; tidy_trace; intros Hq Hboth.
  - split; intros Hfresh; rewrite <- Hans in Hfresh; injection Hfresh as ->.
    + rewrite slow_log_eq. simpl. split; [reflexivity|]. split; [exact Hworld|].
      tidy_trace. rewrite (Hboth eq_refl). reflexivity.
    + rewrite slow_log_eq. simpl. fold (helper_install helper). rewrite Hworld.
      destruct (os_run os (snd answer) (helper_install helper))
        as [[[]|[]] w4]; simpl; rewrite ?slow_log_eq; simpl;
        (split;
         [destruct Hq as [Hq|Hq]; tidy_trace; rewrite Hq, <- app_assoc; simpl;
          [exists [query_installed helper]
          |exists [query_installed helper; query_available helper]]; reflexivity
         |intros msg' Hx; simpl in Hx;
          first [discriminate Hx
                |injection Hx as ->; split; [reflexivity | apply printed_ends]]]).
  - split; intros Hx; rewrite <- Hans in Hx; discriminate Hx.
Qed.

End InstallFacts.

Lemma native_install_sequence_witness :
  let r := install_vkbasalt (with_machine (fun _ => "x86_64") debian_arm_os) "debian"
             false "org.vkbasalt.vkbasalt" EmptyString (initial tt) in
  fst r = Ret tt /\
  commands (trace (snd r))
  = [] ++ [["sudo"; "apt-get"; "update"]; ["sudo"; "apt-get"; "install"; "-y"; "vkbasalt"]].
Proof.
  destruct (native_install_sequence (with_machine (fun _ => "x86_64") debian_arm_os)
              "debian" "org.vkbasalt.vkbasalt" EmptyString (initial tt)
              [["sudo"; "apt-get"; "update"]; ["sudo"; "apt-get"; "install"; "-y"; "vkbasalt"]]
              eq_refl eq_refl) as (_ & Hall & _).
  apply Hall. intros w argv. reflexivity.
Defined.

Lemma flatpak_path_witness :
  let r := install_vkbasalt debian_arm_os "debian" true "org.vkbasalt.vkbasalt"
             EmptyString (initial tt) in
  fst r = Ret tt /\ world (snd r) = tt /\ commands (trace (snd r)) = [].
Proof.
  destruct (flatpak_path debian_arm_os "debian" "org.vkbasalt.vkbasalt" EmptyString
              (initial tt)) as (Hno & _).
  apply (Hno eq_refl).
Defined.

(** An Arch machine where pacman has no such package and the helper
    [yay] reports the given versions. *)
Definition arch_helper_os (installed : string) (available : list string) : OS unit :=
  static_os ["sudo"; "pacman"; "yay"] [] "x86_64" (Ret ["ID=arch"])
    (fun argv =>
       match argv with
       | "sudo" :: _ =>
           Raise (CalledProcessError "Command 'sudo' returned non-zero exit status 1.")
       | _ => Ret tt
       end)
    (yay_outputs installed available).

Lemma install_arch_second_tier_witness :
  let r := install_vkbasalt (arch_helper_os "vkbasalt 1.2.3" ["Version : 1.2.3"]) "arch"
             false "org.vkbasalt.vkbasalt" EmptyString (initial tt) in
  fst r = Ret tt /\
  world (snd r) = tt /\
  commands (trace (snd r))
  = [] ++ [pacman_install; query_installed "yay"; query_available "yay"].
Proof.
  destruct (install_arch_second_tier (arch_helper_os "vkbasalt 1.2.3" ["Version : 1.2.3"])
              "org.vkbasalt.vkbasalt" EmptyString (initial tt)
              "Command 'sudo' returned non-zero exit status 1." tt "yay"
              eq_refl eq_refl eq_refl) as (Hfresh & _).
  apply Hfresh. reflexivity.
Defined.

(* ================================================================== *)
(** ** Where install mode does reach provisioning *)
(* ================================================================== *)

(** Subprocesses that fail only by a non-zero exit. *)
Definition fails_by_exit_only {W} (os : OS W) : Prop :=
  forall w argv e w', os_run os w argv = (Raise e, w') ->
                      exists msg, e = CalledProcessError msg.

Section Reach.

Context {W : Type} (os : OS W).

Ltac step_run Hexit :=
  match goal with
  | |- context [os_run os ?w ?a] =>
      let E := fresh "Erun" in
      let e := fresh "e" in
      let m := fresh "m" in
      destruct (os_run os w a) as [[[]|e] ?] eqn:E;
      [|destruct (Hexit _ _ _ _ E) as (m & ->)]
  end.

Lemma install_native_returns distro pkg aur s :
  fails_by_exit_only os ->
  String.eqb distro "arch" = false ->
  exists s',
    install_vkbasalt os distro false pkg aur s = (Ret tt, s') /\
    provisioned (trace s') = provisioned (trace s).
Proof.
  intros Hexit Harch. run_script. rewrite slow_log_eq. simpl.
  destruct (negb (String.eqb (os_machine os (world s)) "x86_64")).
  { rewrite slow_log_eq. eexists. split; [reflexivity | tidy_trace; reflexivity]. }
  rewrite Harch.
  destruct (String.eqb distro "debian");
    [|destruct (String.eqb distro "fedora");
      [|destruct (String.eqb distro "void");
        [|destruct (String.eqb distro "solus")]]];
    rewrite slow_log_eq; simpl;
    try (step_run Hexit; simpl; try (step_run Hexit; simpl));
    rewrite ?slow_log_eq; simpl;
    (eexists; split; [reflexivity | tidy_trace; rewrite ?app_nil_r; reflexivity]).
Qed.

(** X15: install mode on a distribution other than arch, without Flatpak, on a
    machine whose commands fail only by a non-zero exit: whether vkbasalt
    is present or not and whatever the commands do, the run gets to
    [setup_vkbasalt_config]. *)
Theorem install_mode_reaches_provisioning args s :
  uninstall args = false ->
  flatpak args = false ->
  String.eqb (run_distro os (world s) args) "arch" = false ->
  fails_by_exit_only os ->
  exists rest,
    provisioned (trace (snd (main os args s)))
    = provisioned (trace s) ++ SetupConfig :: rest.
Proof.
  intros Hun Hfp Harch Hexit.
  destruct (main_shape os args s) as (s1 & Hw & (d1 & Ed1 & Fd1) & _ & Emain).
  rewrite Emain, Hun. clear Emain.
  assert (Hp1 : provisioned (trace s1) = provisioned (trace s)).
  { rewrite Ed1, provisioned_app, (talk_provisioned d1 Fd1). apply app_nil_r. }
  unfold main_install. unfold bind at 1.
  destruct (presence_answer os s1) as (s2 & E2 & Htalk2).
  pose proof (after_talk_provisioned _ _ Htalk2) as Hp2.
  rewrite E2. rewrite Harch. cbn [andb].
  assert (Hskip : forall message s3,
            provisioned (trace s3) = provisioned (trace s) ->
            exists rest,
              provisioned (trace (snd (bind (slow_log message)
                                         (fun _ => provisioning os) s3)))
              = provisioned (trace s) ++ SetupConfig :: rest).
  { intros message s3 H3. unfold bind. rewrite slow_log_eq.
    match goal with
    | |- context [provisioning os ?S] => destruct (provisioning_runs os S) as (_ & rest & Hp)
    end.
    exists rest. rewrite Hp. tidy_trace. rewrite H3. reflexivity. }
  destruct (present os (world s1) (CUSTOM_PATH s1)).
  - apply Hskip. congruence.
  - unfold main_proceed. rewrite Hfp. unfold bind at 1. rewrite slow_log_eq.
    unfold bind at 1.
    match goal with
    | |- context [install_vkbasalt os ?d false ?p ?a ?S] =>
        destruct (install_native_returns d p a S Hexit Harch) as (s4 & E4 & Hp4)
    end.
    rewrite E4.
    destruct (provisioning_runs os s4) as (_ & rest & Hp).
    exists rest. rewrite Hp, Hp4. tidy_trace. rewrite Hp2, Hp1. reflexivity.
Qed.

End Reach.

Lemma install_mode_reaches_provisioning_witness :
  exists rest,
    provisioned
      (trace (snd (main (static_os ["sudo"; "dnf"] [] "x86_64" (Ret ["ID=fedora"])
                           (fun _ => Raise (CalledProcessError "exit status 1"))
                           (fun _ => Ret EmptyString))
                     default_args (initial tt))))
    = [] ++ SetupConfig :: rest.
Proof.
  apply (install_mode_reaches_provisioning
           (static_os ["sudo"; "dnf"] [] "x86_64" (Ret ["ID=fedora"])
              (fun _ => Raise (CalledProcessError "exit status 1"))
              (fun _ => Ret EmptyString))
           default_args (initial tt)); try reflexivity.
  intros w argv e w' H. injection H as <- _. eexists; reflexivity.
Defined.

(* ================================================================== *)
(** ** The provisioning functions (lines 269-373) *)
(* ================================================================== *)

(** [main] above takes the three provisioning functions as opaque steps.
    This module looks inside them.  They have no exception handler, so
    the errors of the file system, the terminal and the network are an
    abstract type [E] and simply end the function.  The home directory
    ([os.path.expanduser]) is the same throughout a run. *)
Module Provisioning.

(** [os.path.join(a, b)] on POSIX. *)
Fixpoint ends_with_slash (s : string) : bool :=
  match s with
  | EmptyString => false
  | String c EmptyString => Ascii.eqb c "/"
  | String _ r => ends_with_slash r
  end.

Definition path_join (a b : string) : string :=
  if Py.startswith "/" b then b
  else if Py.is_empty a || ends_with_slash a then a ^^ b
  else a ^^ "/" ^^ b.

Definition COMMIT_HASH : string := "a621b3f4f154e4a1ba8e07d63827e1e757a05bbd".

Definition ZIP_URL : string :=
  "https://github.com/crosire/reshade-shaders/archive/" ^^ COMMIT_HASH ^^ ".zip".

Inductive outcome (E A : Type) : Type :=
| Ok (a : A)
| Err (e : E).
Arguments Ok {E A} a.
Arguments Err {E A} e.

(** What the provisioning functions do, in order. *)
Inductive action : Type :=
| Say (message : string)              (* print *)
| Pause (seconds : nat)               (* time.sleep *)
| Makedirs (path : string)            (* os.makedirs(path, exist_ok=True) *)
| Copy (src dst : string)             (* shutil.copy *)
| Ask (prompt : string)               (* input(prompt) *)
| Download (url path : string)        (* urllib.request.urlretrieve *)
| Extract (zip dir : string)          (* ZipFile(zip).extractall(dir) *)
| Remove (path : string)              (* os.remove *)
| Copytree (src dst : string)         (* shutil.copytree(..., dirs_exist_ok=True) *)
| MakeTemp                            (* tempfile.TemporaryDirectory() *)
| Cleanup (path : string).            (* leaving the with block *)

(** The file system, the terminal and the network over a world [F]. *)
Record FS (F E : Type) : Type := {
  fs_expanduser : string -> string;
  fs_exists : F -> string -> bool;
  fs_makedirs : F -> string -> outcome E unit * F;
  fs_copy : F -> string -> string -> outcome E unit * F;
  fs_input : F -> string -> outcome E string * F;
  fs_urlretrieve : F -> string -> string -> outcome E unit * F;
  fs_extractall : F -> string -> string -> outcome E unit * F;
  fs_remove : F -> string -> outcome E unit * F;
  fs_copytree : F -> string -> string -> outcome E unit * F;
  fs_mkdtemp : F -> outcome E string * F;
  fs_cleanup : F -> string -> outcome E unit * F
}.
Arguments fs_expanduser {F E} _ _.
Arguments fs_exists {F E} _ _ _.
Arguments fs_makedirs {F E} _ _ _.
Arguments fs_copy {F E} _ _ _ _.
Arguments fs_input {F E} _ _ _.
Arguments fs_urlretrieve {F E} _ _ _ _.
Arguments fs_extractall {F E} _ _ _ _.
Arguments fs_remove {F E} _ _ _.
Arguments fs_copytree {F E} _ _ _ _.
Arguments fs_mkdtemp {F E} _ _.
Arguments fs_cleanup {F E} _ _ _.

Record pstate (F : Type) : Type := mkP {
  files : F;
  done : list action;
  slow_mode : bool
}.
Arguments mkP {F} _ _ _.
Arguments files {F} _.
Arguments done {F} _.
Arguments slow_mode {F} _.

Definition P (F E A : Type) : Type := pstate F -> outcome E A * pstate F.

Definition pure {F E A} (a : A) : P F E A := fun s => (Ok a, s).

Definition andthen {F E A B} (m : P F E A) (k : A -> P F E B) : P F E B :=
  fun s => match m s with
           | (Ok a, s') => k a s'
           | (Err e, s') => (Err e, s')
           end.

Declare Scope prov_scope.
Delimit Scope prov_scope with prov.
Notation "x <-- m ;;; k" := (andthen m (fun x => k))
  (at level 61, m at next level, right associativity) : prov_scope.
Notation "m ;;; k" := (andthen m (fun _ => k))
  (at level 61, right associativity) : prov_scope.
Local Open Scope prov_scope.

Definition record {F E} (a : action) : P F E unit :=
  fun s => (Ok tt, mkP (files s) (done s ++ [a]) (slow_mode s)).

(** [slow_log] (lines 65-69) in this monad. *)
Definition say {F E} (message : string) : P F E unit :=
  fun s =>
    (Ok tt, mkP (files s)
              (done s ++ Say message :: if slow_mode s then [Pause SLOW_DELAY] else [])
              (slow_mode s)).

Section Functions.

Context {F E : Type} (fs : FS F E).

Definition path_exists (path : string) : P F E bool :=
  fun s => (Ok (fs_exists fs (files s) path), s).

Definition perform {A} (a : action) (call : F -> outcome E A * F) : P F E A :=
  fun s =>
    let (r, w') := call (files s) in
    (r, mkP w' (done s ++ [a]) (slow_mode s)).

Definition makedirs (path : string) : P F E unit :=
  perform (Makedirs path) (fun w => fs_makedirs fs w path).

Definition copy (src dst : string) : P F E unit :=
  perform (Copy src dst) (fun w => fs_copy fs w src dst).

Definition input (prompt : string) : P F E string :=
  perform (Ask prompt) (fun w => fs_input fs w prompt).

Definition urlretrieve (url path : string) : P F E unit :=
  perform (Download url path) (fun w => fs_urlretrieve fs w url path).

Definition extractall (zip dir : string) : P F E unit :=
  perform (Extract zip dir) (fun w => fs_extractall fs w zip dir).

Definition remove (path : string) : P F E unit :=
  perform (Remove path) (fun w => fs_remove fs w path).

Definition copytree (src dst : string) : P F E unit :=
  perform (Copytree src dst) (fun w => fs_copytree fs w src dst).

(** [with tempfile.TemporaryDirectory() as temp_dir: body]: the directory
    is removed on the way out, also when the body raised; an error of the
    removal takes the place of the body's outcome. *)
Definition with_temporary_directory {A} (body : string -> P F E A) : P F E A :=
  temp_dir <-- perform MakeTemp (fun w => fs_mkdtemp fs w) ;;;
  fun s =>
    let (r, s1) := body temp_dir s in
    match perform (Cleanup temp_dir) (fun w => fs_cleanup fs w temp_dir) s1 with
    | (Ok _, s2) => (r, s2)
    | (Err e, s2) => (Err e, s2)
    end.

(** *** [setup_vkbasalt_config] (lines 269-291) *)

Definition config_dir : string := fs_expanduser fs "~/.config/vkBasalt".
Definition config_file : string := path_join config_dir "vkBasalt.conf".
Definition example_file : string := "/usr/share/vkBasalt/vkBasalt.conf.example".

Definition setup_vkbasalt_config : P F E unit :=
  there <-- path_exists config_dir ;;;
  (if negb there then
     say ("Creating configuration directory at " ^^ config_dir ^^ ".") ;;;
     makedirs config_dir
   else say ("Configuration directory exists at " ^^ config_dir ^^ ".")) ;;;
  has_config <-- path_exists config_file ;;;
  if negb has_config then
    has_example <-- path_exists example_file ;;;
    if has_example then
      say ("Copying example config from " ^^ example_file ^^ " to " ^^ config_file ^^ ".") ;;;
      copy example_file config_file
    else say ("Example config not found at " ^^ example_file ^^ ".")
  else say ("Configuration file already exists at " ^^ config_file ^^ ".").

(** *** [create_pyroclast_directories] (lines 294-315) *)

Definition pyroclast_main : string := fs_expanduser fs "~/pyroclast".

Definition directories : list string :=
  [pyroclast_main;
   path_join pyroclast_main "backupfiles";
   path_join pyroclast_main "shaders";
   path_join pyroclast_main "textures";
   path_join pyroclast_main "lut"].

(** Lines 310-315: the loop. *)
Fixpoint ensure_directories (dirs : list string) : P F E unit :=
  match dirs with
  | [] => pure tt
  | directory :: rest =>
      there <-- path_exists directory ;;;
      (if negb there then
         say ("Creating directory: " ^^ directory) ;;;
         makedirs directory
       else say ("Directory already exists: " ^^ directory)) ;;;
      ensure_directories rest
  end.

Definition create_pyroclast_directories : P F E unit :=
  ensure_directories directories.

(** *** [download_and_extract_zip] (lines 318-329) *)

Definition download_and_extract_zip (url extract_to : string) : P F E unit :=
  say ("Downloading from " ^^ url ^^ " ...") ;;;
  let zip_path := path_join extract_to "download.zip" in
  urlretrieve url zip_path ;;;
  say "Download complete. Extracting..." ;;;
  extractall zip_path extract_to ;;;
  remove zip_path ;;;
  say "Extraction complete.".

(** *** [copy_directory] (lines 332-341) *)

Definition copy_directory (src dst : string) : P F E unit :=
  there <-- path_exists src ;;;
  if there then
    copytree src dst ;;;
    say ("Copied contents from " ^^ src ^^ " to " ^^ dst ^^ ".")
  else say ("Source directory " ^^ src ^^ " not found.").

(** *** [prompt_and_download_assets] (lines 344-373) *)

(** Lines 349-353: an answer counts as yes when, stripped and lowered, it
    starts with [y]. *)
Definition says_yes (answer : string) : bool :=
  Py.startswith "y" (Py.lower (Py.strip answer)).

Definition shaders_prompt : string := "Download shaders from GitHub? (Y/N): ".
Definition textures_prompt : string := "Download textures from GitHub? (Y/N): ".

Definition fetch_assets (download_shaders download_textures : bool)
    (temp_dir : string) : P F E unit :=
  download_and_extract_zip ZIP_URL temp_dir ;;;
  let extracted_folder := path_join temp_dir ("reshade-shaders-" ^^ COMMIT_HASH) in
  (if download_shaders then
     let src_shaders := path_join extracted_folder "Shaders" in
     let dst_shaders := fs_expanduser fs "~/pyroclast/shaders" in
     say ("Copying shaders from " ^^ src_shaders ^^ " to " ^^ dst_shaders ^^ "...") ;;;
     copy_directory src_shaders dst_shaders
   else pure tt) ;;;
  (if download_textures then
     let src_textures := path_join extracted_folder "Textures" in
     let dst_textures := fs_expanduser fs "~/pyroclast/textures" in
     say ("Copying textures from " ^^ src_textures ^^ " to " ^^ dst_textures ^^ "...") ;;;
     copy_directory src_textures dst_textures
   else pure tt).

Definition prompt_and_download_assets : P F E unit :=
  shaders_answer <-- input shaders_prompt ;;;
  textures_answer <-- input textures_prompt ;;;
  let download_shaders := says_yes shaders_answer in
  let download_textures := says_yes textures_answer in
  if negb download_shaders && negb download_textures then
    say "Skipping download of shaders and textures."
  else
    with_temporary_directory (fetch_assets download_shaders download_textures).

End Functions.

(** *** What the functions may add to the record of actions *)

Definition just_talk (a : action) : Prop :=
  match a with
  | Say _ | Pause _ => True
  | _ => False
  end.

Section Adding.

Context {F E : Type}.

(** Whatever its outcome, [m] only appends actions that satisfy [Q]. *)
Definition adds {A} (Q : action -> Prop) (m : P F E A) : Prop :=
  forall s, exists d, done (snd (m s)) = done s ++ d /\ Forall Q d.

Lemma adds_nothing {A} Q (m : P F E A) :
  (forall s, done (snd (m s)) = done s) -> adds Q m.
Proof.
  intros H s. exists []. split; [rewrite H; symmetry; apply app_nil_r | constructor].
Qed.

Lemma adds_pure {A} Q (a : A) : adds Q (pure a : P F E A).
Proof. apply adds_nothing. reflexivity. Qed.

Lemma adds_andthen {A B} Q (m : P F E A) (k : A -> P F E B) :
  adds Q m -> (forall a, adds Q (k a)) -> adds Q (andthen m k).
Proof.
  intros Hm Hk s. unfold andthen. destruct (Hm s) as (d1 & E1 & F1).
  destruct (m s) as [[a|e] s1]; simpl in *.
  - destruct (Hk a s1) as (d2 & E2 & F2). exists (d1 ++ d2). split.
    + rewrite E2, E1, app_assoc. reflexivity.
    + apply Forall_app; split; assumption.
  - exists d1. split; assumption.
Qed.

Lemma adds_say Q message :
  Q (Say message) -> Q (Pause SLOW_DELAY) -> adds Q (say message : P F E unit).
Proof.
  intros HQ HP s. eexists. split; [reflexivity|].
  destruct (slow_mode s); repeat constructor; assumption.
Qed.

Lemma adds_mono {A} (Q R : action -> Prop) (m : P F E A) :
  (forall a, Q a -> R a) -> adds Q m -> adds R m.
Proof.
  intros QR H s. destruct (H s) as (d & Ed & Fd). exists d. split; [exact Ed|].
  eapply Forall_impl; [exact QR | exact Fd].
Qed.

End Adding.

Section FunctionFacts.

Context {F E : Type} (fs : FS F E).

Lemma adds_path_exists Q path : adds Q (path_exists fs path).
Proof. apply adds_nothing. reflexivity. Qed.

Lemma adds_perform {A} (Q : action -> Prop) a (call : F -> outcome E A * F) :
  Q a -> adds Q (perform a call).
Proof.
  intros Ha s. unfold perform. destruct (call (files s)) as [r w']. simpl.
  exists [a]. split; [reflexivity | repeat constructor; exact Ha].
Qed.

Lemma adds_with_temporary_directory {A} (Q : action -> Prop) (body : string -> P F E A) :
  Q MakeTemp -> (forall d, Q (Cleanup d)) -> (forall d, adds Q (body d)) ->
  adds Q (with_temporary_directory fs body).
Proof.
  intros Hm Hc Hb. unfold with_temporary_directory.
  apply adds_andthen; [apply adds_perform; exact Hm|].
  intros temp s. destruct (Hb temp s) as (d1 & E1 & F1).
  destruct (body temp s) as [r s1]. simpl in E1.
  unfold perform. destruct (fs_cleanup fs (files s1) temp) as [[[]|e] w2]; simpl;
    (exists (d1 ++ [Cleanup temp]); split;
     [rewrite E1, app_assoc; reflexivity
     |apply Forall_app; split; [exact F1 | repeat constructor; apply Hc]]).
Qed.

End FunctionFacts.

Ltac adds_go side :=
  repeat match goal with
         | |- adds _ (andthen _ _) => apply adds_andthen; [|intro]
         | |- adds _ (say _) => apply adds_say; side
         | |- adds _ (pure _) => apply adds_pure
         | |- adds _ (path_exists _ _) => apply adds_path_exists
         | |- adds _ (perform _ _) => apply adds_perform; side
         | |- adds _ (with_temporary_directory _ _) =>
             apply adds_with_temporary_directory; [side | intro; side | intro]
         | |- adds _ (if ?b then _ else _) => destruct b
         end.

Ltac run_prov :=
  cbv beta iota zeta delta
    [setup_vkbasalt_config create_pyroclast_directories download_and_extract_zip
     copy_directory prompt_and_download_assets fetch_assets with_temporary_directory
     andthen path_exists say makedirs copy input urlretrieve extractall remove
     copytree perform pure];
  cbn [files done slow_mode fst snd].

(** Case analysis on the file tests and calls of a function that was
    unfolded with [run_prov]. *)
Ltac prov_cases :=
  repeat (cbn [files done slow_mode fst snd negb andb orb];
          match goal with
          | |- context [fs_exists ?fs ?w ?p] =>
              match w with
              | context [fs_makedirs] => fail 1
              | _ => destruct (fs_exists fs w p) eqn:?
              end
          | |- context [let (_, _) := ?c in _] =>
              match c with
              | context [let (_, _) := _ in _] => fail 1
              | _ => destruct c as [[?|?] ?] eqn:?
              end
          end);
  cbn [files done slow_mode fst snd negb andb orb].

Ltac all_of side :=
  cbn [app]; repeat (apply Forall_cons; [side|]); apply Forall_nil.

Section SetupFacts.

Context {F E : Type} (fs : FS F E).

(** The world in which [setup_vkbasalt_config] tests for the
    configuration file: the one it starts in, or the one [os.makedirs]
    left when the directory was missing. *)
Definition world_at_config_test (w : F) : F :=
  if fs_exists fs w (config_dir fs) then w
  else snd (fs_makedirs fs w (config_dir fs)).

(** What [setup_vkbasalt_config] may do besides talking. *)
Definition setup_may (a : action) : Prop :=
  just_talk a \/ a = Makedirs (config_dir fs) \/
  a = Copy example_file (config_file fs).

Definition setup_may_without_copy (a : action) : Prop :=
  just_talk a \/ a = Makedirs (config_dir fs).

Lemma talk_said message (b : bool) (Q : action -> Prop) :
  (forall a, just_talk a -> Q a) ->
  Forall Q (Say message :: if b then [Pause SLOW_DELAY] else []).
Proof. intros H. destruct b; repeat constructor; apply H; exact I. Qed.

(** X16: [setup_vkbasalt_config] touches nothing but the configuration
    directory, which it may create, and the configuration file, which it
    may copy from the example; a configuration file that is there when it
    looks is never overwritten. *)
Theorem setup_keeps_existing_config (s : pstate F) :
  exists d,
    done (snd (setup_vkbasalt_config fs s)) = done s ++ d /\
    Forall setup_may d /\
    (fs_exists fs (world_at_config_test (files s)) (config_file fs) = true ->
     Forall setup_may_without_copy d).
Proof.
  unfold world_at_config_test. destruct s as [w tr slow]. run_prov.
  destruct slow; prov_cases;
    (eexists; split; [rewrite <- ?app_assoc; cbn [app]; reflexivity|]);
    (split;
     [all_of ltac:(first [left; exact I | right; left; reflexivity
                         |right; right; reflexivity])
     |intros Hx;
      first [discriminate Hx
            |all_of ltac:(first [left; exact I | right; reflexivity])]]).
Qed.

End SetupFacts.

Section DirectoryFacts.

Context {F E : Type} (fs : FS F E).

(** What [os.makedirs] is relied on for: once it returns, the path is
    there, and so is everything that was there before. *)
Definition lawful_makedirs : Prop :=
  forall w path w',
    fs_makedirs fs w path = (Ok tt, w') ->
    fs_exists fs w' path = true /\
    forall q, fs_exists fs w q = true -> fs_exists fs w' q = true.

Definition creates_one_of (dirs : list string) (a : action) : Prop :=
  just_talk a \/ exists d, In d dirs /\ a = Makedirs d.

Lemma ensure_directories_adds (dirs all : list string) :
  incl dirs all -> adds (creates_one_of all) (ensure_directories fs dirs).
Proof.
  induction dirs as [|d rest IH]; intros Hincl; simpl; [apply adds_pure|].
  apply adds_andthen; [apply adds_path_exists | intros there].
  apply adds_andthen.
  - destruct (negb there).
    + apply adds_andthen; [|intros _].
      * apply adds_say; left; exact I.
      * apply adds_perform. right. exists d. split; [|reflexivity].
        apply Hincl. left. reflexivity.
    + apply adds_say; left; exact I.
  - intros _. apply IH. intros x Hx. apply Hincl. right. exact Hx.
Qed.

(** X17: [create_pyroclast_directories] does nothing to the file system but
    [os.makedirs] on its five directories. *)
Theorem create_directories_only_creates :
  adds (creates_one_of (directories fs)) (create_pyroclast_directories fs).
Proof. apply ensure_directories_adds. apply incl_refl. Qed.

(** One turn of the loop of lines 310-315. *)
Lemma ensure_directories_cons (d : string) (rest : list string) (s : pstate F) :
  ensure_directories fs (d :: rest) s
  = if fs_exists fs (files s) d then
      ensure_directories fs rest
        (mkP (files s)
           (done s ++ Say ("Directory already exists: " ^^ d)
                      :: if slow_mode s then [Pause SLOW_DELAY] else [])
           (slow_mode s))
    else
      match fs_makedirs fs (files s) d with
      | (Ok _, w1) =>
          ensure_directories fs rest
            (mkP w1
               ((done s ++ Say ("Creating directory: " ^^ d)
                           :: if slow_mode s then [Pause SLOW_DELAY] else [])
                ++ [Makedirs d])
               (slow_mode s))
      | (Err e, w1) =>
          (Err e,
           mkP w1
             ((done s ++ Say ("Creating directory: " ^^ d)
                         :: if slow_mode s then [Pause SLOW_DELAY] else [])
              ++ [Makedirs d])
             (slow_mode s))
      end.
Proof.
  cbn [ensure_directories]. unfold andthen, path_exists, say, makedirs, perform.
  cbn [files done slow_mode].
  destruct (fs_exists fs (files s) d); cbn [negb files done slow_mode]; [reflexivity|].
  destruct (fs_makedirs fs (files s) d) as [[[]|e] w1]; reflexivity.
Qed.

Lemma ensure_directories_done (dirs : list string) (s s1 : pstate F) :
  lawful_makedirs ->
  ensure_directories fs dirs s = (Ok tt, s1) ->
  (forall q, fs_exists fs (files s) q = true -> fs_exists fs (files s1) q = true) /\
  (forall d, In d dirs -> fs_exists fs (files s1) d = true).
Proof.
  intros Hlaw. revert s. induction dirs as [|d rest IH]; intros s Hrun.
  - injection Hrun as <-. split; [auto | intros d []].
  - rewrite ensure_directories_cons in Hrun.
    destruct (fs_exists fs (files s) d) eqn:Ed.
    + destruct (IH _ Hrun) as (Hkeep & Hall). cbn [files] in Hkeep.
      split; [exact Hkeep|].
      intros x [<-|Hx]; [apply Hkeep; exact Ed | apply Hall; exact Hx].
    + destruct (fs_makedirs fs (files s) d) as [[[]|e] w1] eqn:Emk; [|discriminate].
      destruct (Hlaw _ _ _ Emk) as (Hd & Hkeep1).
      destruct (IH _ Hrun) as (Hkeep & Hall). cbn [files] in Hkeep.
      split; [intros q Hq; apply Hkeep, Hkeep1, Hq|].
      intros x [<-|Hx]; [apply Hkeep; exact Hd | apply Hall; exact Hx].
Qed.

Lemma ensure_directories_present (dirs : list string) (s : pstate F) :
  (forall d, In d dirs -> fs_exists fs (files s) d = true) ->
  exists said,
    ensure_directories fs dirs s = (Ok tt, mkP (files s) (done s ++ said) (slow_mode s)) /\
    Forall just_talk said.
Proof.
  revert s. induction dirs as [|d rest IH]; intros s Hall.
  - exists []. rewrite app_nil_r. destruct s. split; [reflexivity | constructor].
  - rewrite ensure_directories_cons, (Hall d (or_introl eq_refl)).
    match goal with
    | |- context [ensure_directories fs rest ?S] =>
        destruct (IH S) as (said & Erun & Fsaid)
    end.
    { intros x Hx. apply Hall. right. exact Hx. }
    rewrite Erun. cbn [files done slow_mode]. eexists. split.
    + rewrite <- app_assoc. reflexivity.
    + apply Forall_app. split; [|exact Fsaid].
      destruct (slow_mode s); repeat constructor.
Qed.

(** X18: running [create_pyroclast_directories] again after it returned does
    nothing but report that the directories exist. *)
Theorem create_directories_idempotent (s s1 : pstate F) :
  lawful_makedirs ->
  create_pyroclast_directories fs s = (Ok tt, s1) ->
  exists said,
    create_pyroclast_directories fs s1
    = (Ok tt, mkP (files s1) (done s1 ++ said) (slow_mode s1)) /\
    Forall just_talk said.
Proof.
  intros Hlaw Hrun. unfold create_pyroclast_directories in *.
  apply ensure_directories_present.
  apply (ensure_directories_done _ _ _ Hlaw Hrun).
Qed.

End DirectoryFacts.

Section AssetFacts.

Context {F E : Type} (fs : FS F E).

(** What [prompt_and_download_assets] does before it has a temporary
    directory: it asks its two questions, talks, and asks for the
    directory. *)
Definition asking (a : action) : Prop :=
  match a with
  | Say _ | Pause _ | MakeTemp => True
  | Ask prompt => prompt = shaders_prompt \/ prompt = textures_prompt
  | _ => False
  end.

(** What it may do once [temp_dir] is its temporary directory: fetch the
    one pinned archive into [download.zip] of that directory, unpack it
    there and delete it, copy the [Shaders] or the [Textures] tree of the
    unpacked folder to its destination, and drop that directory.  It never
    creates a directory itself and never copies a single file. *)
Definition assets_may_in (temp_dir : string) (a : action) : Prop :=
  match a with
  | Say _ | Pause _ | MakeTemp => True
  | Ask prompt => prompt = shaders_prompt \/ prompt = textures_prompt
  | Download url path => url = ZIP_URL /\ path = path_join temp_dir "download.zip"
  | Extract zip dir => zip = path_join temp_dir "download.zip" /\ dir = temp_dir
  | Remove path => path = path_join temp_dir "download.zip"
  | Copytree src dst =>
      (src = path_join (path_join temp_dir ("reshade-shaders-" ^^ COMMIT_HASH)) "Shaders" /\
       dst = fs_expanduser fs "~/pyroclast/shaders") \/
      (src = path_join (path_join temp_dir ("reshade-shaders-" ^^ COMMIT_HASH)) "Textures" /\
       dst = fs_expanduser fs "~/pyroclast/textures")
  | Cleanup path => path = temp_dir
  | Makedirs _ | Copy _ _ => False
  end.

Ltac side_assets_in :=
  cbn [assets_may_in];
  first [exact I | reflexivity | split; reflexivity
        |left; split; reflexivity | right; split; reflexivity].

Lemma fetch_assets_in shaders textures temp_dir :
  adds (assets_may_in temp_dir) (fetch_assets fs shaders textures temp_dir).
Proof.
  unfold fetch_assets, download_and_extract_zip, copy_directory, urlretrieve,
    extractall, remove, copytree.
  adds_go side_assets_in.
Qed.

Ltac side_asking :=
  cbn [asking];
  first [exact I | left; reflexivity | right; reflexivity].

(** X19: either the function touches nothing (it asks, talks, and at most
    asks for a temporary directory it does not get), or the temporary
    directory is the one [tempfile] returned after the two answers, and
    then: the network is only used for the pinned archive, which goes to
    [download.zip] in that directory; that file is unpacked into that
    directory and is the only file removed; only the two trees of the
    unpacked folder are copied, each to its own destination; and that
    directory is the one dropped. *)
Theorem assets_only_pinned_archive (s : pstate F) :
  exists d,
    done (snd (prompt_and_download_assets fs s)) = done s ++ d /\
    (Forall asking d \/
     exists answer1 w1 answer2 w2 temp_dir w3,
       fs_input fs (files s) shaders_prompt = (Ok answer1, w1) /\
       fs_input fs w1 textures_prompt = (Ok answer2, w2) /\
       fs_mkdtemp fs w2 = (Ok temp_dir, w3) /\
       Forall (assets_may_in temp_dir) d).
Proof.
  unfold prompt_and_download_assets, input, with_temporary_directory.
  unfold andthen at 1 2. unfold perform at 1 2.
  destruct (fs_input fs (files s) shaders_prompt) as [[answer1|e] w1] eqn:H1;
    cbn [files done slow_mode snd].
  2: { exists [Ask shaders_prompt]. split; [reflexivity|]. left. all_of side_asking. }
  destruct (fs_input fs w1 textures_prompt) as [[answer2|e] w2] eqn:H2;
    cbn [files done slow_mode snd].
  2: { exists [Ask shaders_prompt; Ask textures_prompt].
       split; [rewrite <- app_assoc; reflexivity|]. left. all_of side_asking. }
  destruct (negb (says_yes answer1) && negb (says_yes answer2)).
  { unfold say. cbn [files done slow_mode snd].
    exists (Ask shaders_prompt :: Ask textures_prompt
            :: Say "Skipping download of shaders and textures."
            :: if slow_mode s then [Pause SLOW_DELAY] else []).
    split; [rewrite <- !app_assoc; reflexivity|]. left.
    destruct (slow_mode s); all_of side_asking. }
  unfold andthen at 1. unfold perform at 1. cbn [files done slow_mode].
  destruct (fs_mkdtemp fs w2) as [[temp_dir|e] w3] eqn:H3; cbn [files done slow_mode snd].
  2: { exists [Ask shaders_prompt; Ask textures_prompt; MakeTemp].
       split; [rewrite <- !app_assoc; reflexivity|]. left. all_of side_asking. }
  match goal with
  | |- context [fetch_assets fs ?a ?b ?t ?S] =>
      destruct (fetch_assets_in a b t S) as (between & Eb & Fb);
      destruct (fetch_assets fs a b t S) as [r s4]
  end.
  cbn [snd done] in Eb.
  exists (Ask shaders_prompt :: Ask textures_prompt :: MakeTemp
          :: between ++ [Cleanup temp_dir]).
  split.
  - unfold perform. destruct (fs_cleanup fs (files s4) temp_dir) as [[[]|e] w5];
      cbn [snd done]; rewrite Eb; rewrite <- !app_assoc; reflexivity.
  - right. exists answer1, w1, answer2, w2, temp_dir, w3.
    split; [first [exact H1 | reflexivity]|].
    split; [first [exact H2 | reflexivity]|].
    split; [first [exact H3 | reflexivity]|].
    repeat (apply Forall_cons; [side_assets_in|]).
    apply Forall_app. split; [exact Fb|]. all_of side_assets_in.
Qed.

(** X20: two answers that are not a yes: nothing is downloaded, no temporary
    directory is made, the function returns after saying so. *)
Theorem assets_declined (s : pstate F) (answer1 answer2 : string) (w1 w2 : F) :
  fs_input fs (files s) shaders_prompt = (Ok answer1, w1) ->
  fs_input fs w1 textures_prompt = (Ok answer2, w2) ->
  says_yes answer1 = false ->
  says_yes answer2 = false ->
  prompt_and_download_assets fs s
  = (Ok tt,
     mkP w2
       (((done s ++ [Ask shaders_prompt]) ++ [Ask textures_prompt])
        ++ Say "Skipping download of shaders and textures."
           :: if slow_mode s then [Pause SLOW_DELAY] else [])
       (slow_mode s)).
Proof.
  intros H1 H2 N1 N2. run_prov. rewrite H1. cbn [files done slow_mode].
  rewrite H2. cbn [files done slow_mode]. rewrite N1, N2. reflexivity.
Qed.

Definition anything (a : action) : Prop := True.

Lemma fetch_assets_adds shaders textures temp_dir :
  adds anything (fetch_assets fs shaders textures temp_dir).
Proof.
  unfold fetch_assets, download_and_extract_zip, copy_directory, urlretrieve,
    extractall, remove, copytree.
  adds_go ltac:(exact I).
Qed.

(** X21: once the temporary directory was made, the last thing the function
    does is drop it, whether the download, the unpacking and the copies
    went through or one of them raised. *)
Theorem assets_temporary_directory_dropped (s : pstate F)
    (answer1 answer2 temp_dir : string) (w1 w2 w3 : F) :
  fs_input fs (files s) shaders_prompt = (Ok answer1, w1) ->
  fs_input fs w1 textures_prompt = (Ok answer2, w2) ->
  says_yes answer1 || says_yes answer2 = true ->
  fs_mkdtemp fs w2 = (Ok temp_dir, w3) ->
  exists between,
    done (snd (prompt_and_download_assets fs s))
    = done s
      ++ Ask shaders_prompt :: Ask textures_prompt :: MakeTemp
      :: between ++ [Cleanup temp_dir].
Proof.
  intros H1 H2 Hyes Htemp.
  unfold prompt_and_download_assets, input, with_temporary_directory.
  unfold andthen at 1 2. unfold perform at 1 2.
  rewrite H1. cbn [files done slow_mode]. rewrite H2. cbn [files done slow_mode].
  assert (Hno : negb (says_yes answer1) && negb (says_yes answer2) = false).
  { destruct (says_yes answer1), (says_yes answer2); try reflexivity; discriminate. }
  rewrite Hno. unfold andthen at 1. unfold perform at 1.
  cbn [files done slow_mode]. rewrite Htemp. cbn [files done slow_mode].
  match goal with
  | |- context [fetch_assets fs ?a ?b ?t ?S] =>
      destruct (fetch_assets_adds a b t S) as (between & Eb & _);
      destruct (fetch_assets fs a b t S) as [r s4]
  end.
  cbn [snd done] in Eb. exists between.
  unfold perform. destruct (fs_cleanup fs (files s4) temp_dir) as [[[]|e] w5];
    cbn [snd done]; rewrite Eb; rewrite <- !app_assoc; reflexivity.
Qed.

End AssetFacts.

(** *** A file system for examples *)

(** The world is the list of paths that exist; every call succeeds and
    the operator gives the same answer to both questions. *)
Definition listed_fs (answer : string) : FS (list string) string :=
  {| fs_expanduser := fun p => match p with
                               | String _ r => "/home/user" ^^ r
                               | EmptyString => EmptyString
                               end;
     fs_exists := fun w p => mem p w;
     fs_makedirs := fun w p => (Ok tt, p :: w);
     fs_copy := fun w _ dst => (Ok tt, dst :: w);
     fs_input := fun w _ => (Ok answer, w);
     fs_urlretrieve := fun w _ path => (Ok tt, path :: w);
     fs_extractall := fun w _ _ => (Ok tt, w);
     fs_remove := fun w _ => (Ok tt, w);
     fs_copytree := fun w _ dst => (Ok tt, dst :: w);
     fs_mkdtemp := fun w => (Ok "/tmp/tmpk3v9", "/tmp/tmpk3v9" :: w);
     fs_cleanup := fun w _ => (Ok tt, w) |}.

Definition fresh_home : pstate (list string) := mkP ["/home/user"] [] false.

Definition has_config : pstate (list string) :=
  mkP ["/home/user/.config/vkBasalt/vkBasalt.conf"; "/home/user/.config/vkBasalt";
       "/usr/share/vkBasalt/vkBasalt.conf.example"] [] false.

Example path_join_ex :
  path_join "/home/user/pyroclast" "lut" = "/home/user/pyroclast/lut" /\
  path_join "/tmp/x/" "download.zip" = "/tmp/x/download.zip" /\
  path_join "/tmp/x" "/etc/passwd" = "/etc/passwd".
Proof. repeat split. Qed.

Example setup_copies_example :
  done (snd (setup_vkbasalt_config (listed_fs "n")
               (mkP ["/usr/share/vkBasalt/vkBasalt.conf.example"] [] false)))
  = [Say "Creating configuration directory at /home/user/.config/vkBasalt.";
     Makedirs "/home/user/.config/vkBasalt";
     Say "Copying example config from /usr/share/vkBasalt/vkBasalt.conf.example to /home/user/.config/vkBasalt/vkBasalt.conf.";
     Copy "/usr/share/vkBasalt/vkBasalt.conf.example"
          "/home/user/.config/vkBasalt/vkBasalt.conf"].
Proof. reflexivity. Qed.

Lemma setup_keeps_existing_config_witness :
  exists d,
    done (snd (setup_vkbasalt_config (listed_fs "n") has_config)) = [] ++ d /\
    Forall (setup_may_without_copy (listed_fs "n")) d.
Proof.
  destruct (setup_keeps_existing_config (listed_fs "n") has_config) as (d & Ed & _ & Hkeep).
  exists d. split; [exact Ed | apply Hkeep; reflexivity].
Defined.

Lemma listed_fs_lawful answer : lawful_makedirs (listed_fs answer).
Proof.
  intros w path w' H. injection H as <-. split.
  - unfold fs_exists, listed_fs, mem. simpl. rewrite String.eqb_refl. reflexivity.
  - intros q Hq. unfold fs_exists, listed_fs, mem in *. simpl. rewrite Hq.
    apply orb_true_r.
Defined.

Lemma create_directories_idempotent_witness :
  exists said,
    create_pyroclast_directories (listed_fs "n")
      (snd (create_pyroclast_directories (listed_fs "n") fresh_home))
    = (Ok tt,
       mkP (files (snd (create_pyroclast_directories (listed_fs "n") fresh_home)))
         (done (snd (create_pyroclast_directories (listed_fs "n") fresh_home)) ++ said)
         false) /\
    Forall just_talk said.
Proof.
  apply (create_directories_idempotent (listed_fs "n") fresh_home
           (snd (create_pyroclast_directories (listed_fs "n") fresh_home))
           (listed_fs_lawful "n")).
  reflexivity.
Defined.

Lemma assets_declined_witness :
  prompt_and_download_assets (listed_fs " No") fresh_home
  = (Ok tt,
     mkP ["/home/user"]
       ((([] ++ [Ask shaders_prompt]) ++ [Ask textures_prompt])
        ++ [Say "Skipping download of shaders and textures."])
       false).
Proof.
  apply (assets_declined (listed_fs " No") fresh_home " No" " No"
           ["/home/user"] ["/home/user"]); reflexivity.
Defined.

Lemma assets_temporary_directory_dropped_witness :
  exists between,
    done (snd (prompt_and_download_assets (listed_fs "Yes please") fresh_home))
    = [] ++ Ask shaders_prompt :: Ask textures_prompt :: MakeTemp
         :: between ++ [Cleanup "/tmp/tmpk3v9"].
Proof.
  apply (assets_temporary_directory_dropped (listed_fs "Yes please") fresh_home
           "Yes please" "Yes please" "/tmp/tmpk3v9"
           ["/home/user"] ["/home/user"] ("/tmp/tmpk3v9" :: ["/home/user"]));
    reflexivity.
Defined.

End Provisioning.

(* ================================================================== *)
(** ** The custom detection path *)
(* ================================================================== *)

Section CustomPath.

Context {W : Type} (os : OS W).

(** [main] up to its mode switch, with the custom path it has set. *)
Lemma main_shape_custom args s :
  exists s1,
    world s1 = world s /\ grows talk s s1 /\
    CUSTOM_PATH s1
    = match custom_path args with
      | Some path => if truthy path then Some path else CUSTOM_PATH s
      | None => CUSTOM_PATH s
      end /\
    main os args s =
    (if uninstall args then
       bind (slow_log "Uninstall mode activated.")
            (fun _ => uninstall_vkbasalt os (run_distro os (world s) args)
                        (flatpak args) (flatpak_pkg args) (aur_helper args))
     else main_install os (run_distro os (world s) args) args) s1.
Proof.
  unfold main.
  cbv beta iota zeta delta [bind ret set_SLOW_MODE get_SLOW_MODE set_CUSTOM_PATH].
  simpl.
  destruct (slow args); rewrite slow_log_eq; simpl;
    (destruct (custom_path args) as [path|];
     [destruct (truthy path); [rewrite slow_log_eq|]|]); simpl;
    match goal with
    | |- context [main_distro os args ?S] =>
        destruct (main_distro_value os args S) as (s1 & E & Hw & Hs & Hc & G);
        rewrite E
    end; simpl in *; exists s1;
    (split; [exact Hw|]); (split; [|split; [exact Hc | reflexivity]]);
    (eapply grows_trans; [|exact G]);
    (eexists; split; [simpl; rewrite <- ?app_assoc; reflexivity|]);
    repeat first [apply talk_logged | apply Forall_app; split].
Qed.

(** X22: the custom detection path is honoured: in install mode, when the
    path given with the custom-path option exists, vkbasalt counts as
    present; unless the run is on arch with an operator-supplied helper,
    nothing is installed, no command is run, and provisioning starts. *)
Theorem custom_path_counts_as_present args s path :
  uninstall args = false ->
  custom_path args = Some path ->
  truthy path = true ->
  os_path_exists os (world s) path = true ->
  String.eqb (run_distro os (world s) args) "arch" && truthy (aur_helper args) = false ->
  commands (trace (snd (main os args s))) = commands (trace s) /\
  exists rest,
    provisioned (trace (snd (main os args s)))
    = provisioned (trace s) ++ SetupConfig :: rest.
Proof.
  intros Hun Hcustom Htruthy Hthere Hcond.
  destruct (main_shape_custom args s) as (s1 & Hw & (d1 & Ed1 & Fd1) & Hc & Emain).
  rewrite Emain, Hun. clear Emain. rewrite Hcustom, Htruthy in Hc.
  destruct (presence_answer os s1) as (s2 & E2 & Htalk2).
  assert (Hpresent : present os (world s1) (CUSTOM_PATH s1) = true).
  { unfold present. rewrite Hc, Hw, Htruthy, Hthere. apply orb_true_r. }
  rewrite Hpresent in E2.
  assert (Hskip : main_install os (run_distro os (world s) args) args s1
                  = provisioning os
                      (mkState (world s2)
                         (trace s2 ++ logged "vkBasalt is already installed. Skipping installation."
                                        (SLOW_MODE s2))
                         (SLOW_MODE s2) (CUSTOM_PATH s2))).
  { unfold main_install. unfold bind at 1. rewrite E2, Hcond.
    unfold bind. rewrite slow_log_eq. reflexivity. }
  rewrite Hskip. clear Hskip.
  match goal with
  | |- context [provisioning os ?S] =>
      destruct (provisioning_runs os S) as (Hcmd & rest & Hprov)
  end.
  rewrite Hcmd, Hprov. tidy_trace.
  rewrite (after_talk_commands _ _ Htalk2), (after_talk_provisioned _ _ Htalk2).
  rewrite Ed1, commands_app, provisioned_app,
    (talk_commands d1 Fd1), (talk_provisioned d1 Fd1), !app_nil_r.
  split; [reflexivity | exists rest; reflexivity].
Qed.

End CustomPath.

Lemma custom_path_counts_as_present_witness :
  commands
    (trace (snd (main (static_os [] ["/opt/vkbasalt/lib"] "x86_64" (Ret ["ID=debian"])
                         (fun _ => Ret tt) (fun _ => Ret EmptyString))
                   (mkArgs false None false false "org.vkbasalt.vkbasalt"
                      (Some "/opt/vkbasalt/lib") EmptyString)
                   (initial tt)))) = [].
Proof.
  apply (proj1 (custom_path_counts_as_present
                  (static_os [] ["/opt/vkbasalt/lib"] "x86_64" (Ret ["ID=debian"])
                     (fun _ => Ret tt) (fun _ => Ret EmptyString))
                  (mkArgs false None false false "org.vkbasalt.vkbasalt"
                     (Some "/opt/vkbasalt/lib") EmptyString)
                  (initial tt) "/opt/vkbasalt/lib"
                  eq_refl eq_refl eq_refl eq_refl eq_refl)).
Defined.
